(** * pgvector provisioning lambdas: validation, reconciliation, orchestration

  A shallow embedding of the two Lambda entry points of the repository

    - [src/lambdas/create-pgvector-extension/index.py]  (module [TableHandler])
    - [src/lambdas/create_pgvector_extension/index.py]  (module [Legacy])

  together with the small part of Python they rely on (module [Py]) and of
  the [re] module (module [Re]).  Calls into libraries (powertools, the
  engine, psycopg, boto3) are section variables: the theorems hold for every
  behaviour of those collaborators.  Logging ([LOGGER.info], [LOGGER.error],
  [print]) has no effect on what a handler returns and is left out.

  A Python [str] is a [string] whose characters stand for the code points
  below 256, so that [String.length] is [len]. *)

From Stdlib Require Import ZArith Ascii String Bool Lia.
From stdpp Require Import base strings gmap pretty list.

Local Open Scope Z_scope.

(* ===================================================================== *)
(** * Python values, exceptions and outcomes *)
(* ===================================================================== *)

Module Py.

(** The values that reach the code: [os.environ.get] gives [None] or a
    [str]; the port of the connection builder is declared [int]; a header
    value may be any other object (a list, a dict, a float), of which the
    code can observe the length if it has one, the truth value and the
    text. *)
Inductive value :=
| VNone
| VStr (s : string)
| VInt (z : Z)
| VObj (len : option nat) (truth : bool) (text : string).

Definition is_empty (s : string) : bool :=
  match s with EmptyString => true | String _ _ => false end.

(** [bool(v)], as used by [if value], [not value] and [all([...])]. *)
Definition truthy (v : value) : bool :=
  match v with
  | VNone => false
  | VStr s => negb (is_empty s)
  | VInt z => negb (z =? 0)
  | VObj _ t _ => t
  end.

(** [format(v)], as used by an f-string replacement field [{v}]. *)
Definition format (v : value) : string :=
  match v with
  | VNone => "None"
  | VStr s => s
  | VInt z => pretty z
  | VObj _ _ t => t
  end.

(** [os.environ.get(k)] *)
Definition environ_get (env : gmap string string) (k : string) : value :=
  match env !! k with
  | Some s => VStr s
  | None => VNone
  end.

(** Subclasses of [Exception].  [Other] stands for any class that no
    [except] clause of the repository names. *)
Inductive exn :=
| SchemaValidationError (msg : string)
| TableNameValidationError (msg : string)
| PartialDatabaseCredentialsError (msg : string)
| NotImplementedError (msg : string)
| ValueError (msg : string)
| TypeError (msg : string)
| KeyError (key : string)
| Other (cls msg : string).

Definition quote : ascii := "039".
Definition dquote : ascii := "034".
Definition newline : ascii := "010".
Definition nl : string := String newline EmptyString.

(** [repr(s)] of a [str] that needs no escaping (the configuration keys). *)
Definition repr_plain (s : string) : string :=
  String quote s +:+ String quote "".

(** [str(e)], as used by [{e}] and [{str(e)}]. *)
Definition str (e : exn) : string :=
  match e with
  | SchemaValidationError m | TableNameValidationError m
  | PartialDatabaseCredentialsError m | NotImplementedError m
  | ValueError m | TypeError m | Other _ m => m
  | KeyError k => repr_plain k
  end.

(** The result of running a block: it returns or it raises. *)
Inductive outcome (A : Type) :=
| Return (a : A)
| Raise (e : exn).
Arguments Return {A} a.
Arguments Raise {A} e.

Definition bind {A B} (m : outcome A) (k : A -> outcome B) : outcome B :=
  match m with
  | Return a => k a
  | Raise e => Raise e
  end.

(** [d[k]] on a dict kept in insertion order. *)
Fixpoint getitem {A} (d : list (string * A)) (k : string) : outcome A :=
  match d with
  | [] => Raise (KeyError k)
  | (k', v) :: d' => if String.eqb k' k then Return v else getitem d' k
  end.

(** [repr(l)] of a list of plain strings: ['A', 'B']. *)
Fixpoint join_repr (l : list string) : string :=
  match l with
  | [] => ""
  | [x] => repr_plain x
  | x :: l' => repr_plain x +:+ ", " +:+ join_repr l'
  end.

Definition repr_list (l : list string) : string :=
  "[" +:+ join_repr l +:+ "]".

Definition lower_char (c : ascii) : ascii :=
  let n := nat_of_ascii c in
  if ((65 <=? n) && (n <=? 90))%nat then ascii_of_nat (n + 32) else c.

(** [s.lower()] on text below code point 128; the validator only calls it
    after the pattern has matched, where every character is such. *)
Fixpoint lower (s : string) : string :=
  match s with
  | EmptyString => EmptyString
  | String c s' => String (lower_char c) (lower s')
  end.

End Py.

Export Py(value(..), exn(..), outcome(..)).

#[global] Instance outcome_ret : MRet outcome := @Return.
#[global] Instance outcome_bind : MBind outcome := fun A B k m => Py.bind m k.

(* ===================================================================== *)
(** * The fragment of [re] used by the validator *)
(* ===================================================================== *)

Module Re.

(** A bracket class is a list of inclusive ranges: [[a-zA-Z_]]. *)
Definition class := list (ascii * ascii).

Definition in_range (c : ascii) (r : ascii * ascii) : bool :=
  ((nat_of_ascii (fst r) <=? nat_of_ascii c)
   && (nat_of_ascii c <=? nat_of_ascii (snd r)))%nat.

Definition in_class (k : class) (c : ascii) : bool := existsb (in_range c) k.

(** The pattern language: [^], [$], [[k]] and [[k]*], in sequence. *)
Inductive item :=
| Bol
| Eol
| One (k : class)
| Many (k : class).

(** Python's [$] without [re.MULTILINE]: "matches the end of the string or
    just before the newline at the end of the string". *)
Definition at_eol (s : string) : bool :=
  match s with
  | EmptyString => true
  | String c EmptyString => Ascii.eqb c Py.newline
  | String _ (String _ _) => false
  end.

(** Backtracking matcher; [bol] tells whether no character was consumed
    yet.  [re.match] anchors at the start and accepts when the pattern is
    exhausted, whatever input is left. *)
Fixpoint run (p : list item) (bol : bool) (s : string) {struct p} : bool :=
  match p with
  | [] => true
  | Bol :: p' => bol && run p' bol s
  | Eol :: p' => at_eol s && run p' bol s
  | One k :: p' =>
      match s with
      | EmptyString => false
      | String c s' => in_class k c && run p' false s'
      end
  | Many k :: p' =>
      (fix many (bol : bool) (s : string) {struct s} : bool :=
         match s with
         | EmptyString => run p' bol s
         | String c s' => (in_class k c && many false s') || run p' bol s
         end) bol s
  end.

Definition re_match (p : list item) (s : string) : bool := run p true s.

End Re.

(* ===================================================================== *)
(** * create-pgvector-extension/index.py *)
(* ===================================================================== *)

Module TableHandler.

Import Py Re.

Definition head_class : class :=
  [("a", "z"); ("A", "Z"); ("_", "_")]%char.
Definition tail_class : class :=
  [("a", "z"); ("A", "Z"); ("0", "9"); ("_", "_")]%char.

(** r'^[a-zA-Z_][a-zA-Z0-9_]*$' *)
Definition table_name_pattern : list item :=
  [Bol; One head_class; Many tail_class; Eol].

Definition reserved_keywords : gset string :=
  list_to_set
    ["select"; "from"; "where"; "insert"; "update"; "delete"; "create"; "drop";
     "table"; "index"; "view"; "schema"; "database"; "user"; "password"; "host";
     "port"; "name"; "type"; "size"; "vector"; "extension"; "pgvector"].

(** The pattern after its first character, as a function of the input alone
    (shown equal to the matcher's run in [run_many_tail]). *)
Fixpoint tail_then_eol (s : string) : bool :=
  match s with
  | EmptyString => true
  | String c s' => (in_class tail_class c && tail_then_eol s') || at_eol s
  end.

Definition _validate_table_name (table_name : string) : bool :=
  if is_empty table_name then false
  else if (63 <? String.length table_name)%nat then false
  else if negb (re_match table_name_pattern table_name) then false
  else if bool_decide (lower table_name ∈ reserved_keywords) then false
  else true.

(** The call [_validate_table_name(table_name)] on whatever the header holds:
    the function is annotated [str -> bool], and on another object [len] or
    [re.match] raises [TypeError]. *)
Definition call_validate_table_name (table_name : value) : outcome bool :=
  if negb (truthy table_name) then Return false
  else match table_name with
       | VStr s => Return (_validate_table_name s)
       | VObj (Some n) _ _ =>
           if (63 <? n)%nat then Return false
           else Raise (TypeError "expected string or bytes-like object")
       | _ => Raise (TypeError "object has no len()")
       end.

Definition db_keys : list string :=
  ["DB_NAME"; "DB_USER"; "DB_HOST"; "DB_PORT"; "DB_PASSWORD";
   "EMBEDDING_MODEL_DIMENSIONS"; "PGVECTOR_DRIVER"].

Definition nonempty {A} (l : list A) : bool :=
  match l with [] => false | _ :: _ => true end.

Definition present_of (db_vars : list (string * value)) : list string :=
  map fst (List.filter (fun kv => truthy (snd kv)) db_vars).

Definition missing_of (db_vars : list (string * value)) : list string :=
  map fst (List.filter (fun kv => negb (truthy (snd kv))) db_vars).

Definition partial_message (present_vars missing_vars : list string) : string :=
  "Some database credentials missing. Present: " +:+ repr_list present_vars
  +:+ ", Missing: " +:+ repr_list missing_vars.

(** The dict literal [db_vars] of [_check_database_env_vars]. *)
Definition read_db_vars (environ : gmap string string) : list (string * value) :=
  [("DB_NAME", environ_get environ "DB_NAME");
   ("DB_USER", environ_get environ "DB_USER");
   ("DB_HOST", environ_get environ "DB_HOST");
   ("DB_PORT", environ_get environ "DB_PORT");
   ("DB_PASSWORD", environ_get environ "DB_PASSWORD");
   ("EMBEDDING_MODEL_DIMENSIONS", environ_get environ "EMBEDDING_MODEL_DIMENSIONS");
   ("PGVECTOR_DRIVER", environ_get environ "PGVECTOR_DRIVER")].

(** A key counts as set when its value is truthy. *)
Definition is_set (environ : gmap string string) (k : string) : bool :=
  truthy (environ_get environ k).

Definition _check_database_env_vars (environ : gmap string string)
  : outcome (list (string * value)) :=
  let db_vars := read_db_vars environ in
  let present_vars := present_of db_vars in
  let missing_vars := missing_of db_vars in
  if nonempty present_vars && nonempty missing_vars then
    Raise (PartialDatabaseCredentialsError (partial_message present_vars missing_vars))
  else Return db_vars.

(** [v != "psycopg"] is decided by [v == s] for a [str] literal [s]. *)
Definition eq_str (v : value) (s : string) : bool :=
  match v with
  | VStr s' => String.eqb s' s
  | _ => false
  end.

Definition _connection_string_from_db_params
  (driver host port database user password : value) : outcome string :=
  if negb (eq_str driver "psycopg") then
    Raise (NotImplementedError "Only psycopg3 driver is supported")
  else
    Return ("postgresql+" +:+ format driver +:+ "://" +:+ format user +:+ ":"
            +:+ format password +:+ "@" +:+ format host +:+ ":" +:+ format port
            +:+ "/" +:+ format database).

Record response := { statusCode : Z; body : string }.

Section Collaborators.

(** The invocation event and the engine object are opaque to this module. *)
Context {event engine : Type}.

(** powertools: schema validation and header parsing. *)
Variable validate_event_headers : event -> outcome unit.
Variable parse_event_headers : event -> outcome (gmap string value).
(** [PGEngine.from_connection_string(url=...)] and
    [await engine.ainit_vectorstore_table(table_name=..., vector_size=...)]. *)
Variable from_connection_string : string -> outcome engine.
Variable ainit_vectorstore_table : engine -> value -> Z -> outcome unit.
(** Which strings the builtin [int] parses, and to what. *)
Variable int_of_str : string -> option Z.

(** [headers.get(k)] *)
Definition headers_get (headers : gmap string value) (k : string) : value :=
  match headers !! k with
  | Some v => v
  | None => VNone
  end.

(** [int(v)] for the values [db_vars] can hold. *)
Definition py_int (v : value) : outcome Z :=
  match v with
  | VStr s =>
      match int_of_str s with
      | Some z => Return z
      | None => Raise (ValueError ("invalid literal for int() with base 10: " +:+ repr_plain s))
      end
  | VInt z => Return z
  | _ => Raise (TypeError "int() argument must be a string, a bytes-like object or a real number")
  end.

Definition invalid_message (table_name : value) : string :=
  "Invalid table name '" +:+ format table_name
  +:+ "'. Table names must start with a letter or underscore, "
  +:+ "contain only alphanumeric characters and underscores, be 1-63 characters long, "
  +:+ "and not be a reserved keyword.".

(** The [try] block of [_extract_table_name_from_headers]. *)
Definition extract_try (ev : event) : outcome value :=
  _ ← validate_event_headers ev;
  headers ← parse_event_headers ev;
  let table_name := headers_get headers "x-table-name" in
  if negb (truthy table_name) then
    Raise (TableNameValidationError "Table name header 'x-table-name' is required")
  else
    ok ← call_validate_table_name table_name;
    if negb ok then Raise (TableNameValidationError (invalid_message table_name))
    else Return table_name.

(** [except SchemaValidationError: raise] comes first; [except Exception]
    wraps everything else, the two [TableNameValidationError]s of the block
    included. *)
Definition _extract_table_name_from_headers (ev : event) : outcome value :=
  match extract_try ev with
  | Return table_name => Return table_name
  | Raise e =>
      match e with
      | SchemaValidationError _ => Raise e
      | _ =>
          Raise (TableNameValidationError
                   ("Failed to extract table name from headers: " +:+ str e))
      end
  end.

Definition success_message (table_name : value) : string :=
  "Successfully created vector table '" +:+ format table_name
  +:+ "' with pgvector extension.".

Definition generic_failure : string :=
  "Failed to create vector table with pgvector extension.".

(** The [try] block of [handler]; keyword arguments are evaluated in the
    order they are written. *)
Definition handler_try (ev : event) (environ : gmap string string)
  : outcome response :=
  table_name ← _extract_table_name_from_headers ev;
  db_vars ← _check_database_env_vars environ;
  driver ← getitem db_vars "PGVECTOR_DRIVER";
  database ← getitem db_vars "DB_NAME";
  user ← getitem db_vars "DB_USER";
  password ← getitem db_vars "DB_PASSWORD";
  host ← getitem db_vars "DB_HOST";
  port ← getitem db_vars "DB_PORT";
  connection_string ←
    _connection_string_from_db_params driver host port database user password;
  engine ← from_connection_string connection_string;
  dims ← getitem db_vars "EMBEDDING_MODEL_DIMENSIONS";
  embedding_dimensions ← py_int dims;
  _ ← ainit_vectorstore_table engine table_name embedding_dimensions;
  Return {| statusCode := 200; body := success_message table_name |}.

Definition handler (ev : event) (environ : gmap string string)
  : outcome response :=
  match handler_try ev environ with
  | Return r => Return r
  | Raise e =>
      match e with
      | SchemaValidationError _ | TableNameValidationError _ =>
          Return {| statusCode := 400; body := "Validation error: " +:+ str e |}
      | PartialDatabaseCredentialsError _ =>
          Return {| statusCode := 400;
                    body := "Database credentials error: " +:+ str e |}
      | _ =>
          Return {| statusCode := 500; body := generic_failure |}
      end
  end.

End Collaborators.

(** The class that the extractor re-raises as it is. *)
Definition is_schema_error (e : exn) : bool :=
  match e with
  | SchemaValidationError _ => true
  | _ => false
  end.

(** The exception classes that [handler] answers with 400. *)
Definition named_category (e : exn) : bool :=
  match e with
  | SchemaValidationError _ | TableNameValidationError _
  | PartialDatabaseCredentialsError _ => true
  | _ => false
  end.

(** The descriptor [handler] asks the builder for. *)
Definition url_of (environ : gmap string string) : outcome string :=
  _connection_string_from_db_params
    (environ_get environ "PGVECTOR_DRIVER") (environ_get environ "DB_HOST")
    (environ_get environ "DB_PORT") (environ_get environ "DB_NAME")
    (environ_get environ "DB_USER") (environ_get environ "DB_PASSWORD").

End TableHandler.

(* ===================================================================== *)
(** * create_pgvector_extension/index.py *)
(* ===================================================================== *)

Module Legacy.

Import Py.

Record response := { statusCode : Z; body : string }.

Definition hex_digit (n : nat) : ascii :=
  match String.get n "0123456789abcdef" with
  | Some c => c
  | None => "0"%char
  end.

(** [json.dumps] of a [str] whose characters are code points below 256
    (the default [ensure_ascii=True]): backslash and the double quote are
    escaped, and so is every character outside [' '..'~']. *)
Definition json_escape_char (c : ascii) : string :=
  let n := nat_of_ascii c in
  if Ascii.eqb c dquote then String "\" (String dquote "")
  else if Ascii.eqb c "\" then "\\"
  else if (n =? 10)%nat then "\n"
  else if (n =? 13)%nat then "\r"
  else if (n =? 9)%nat then "\t"
  else if (n =? 8)%nat then "\b"
  else if (n =? 12)%nat then "\f"
  else if ((n <? 32) || (126 <? n))%nat then
    "\u00" +:+ String (hex_digit (n / 16)) (String (hex_digit (n mod 16)) "")
  else String c "".

Fixpoint json_escape (s : string) : string :=
  match s with
  | EmptyString => EmptyString
  | String c s' => json_escape_char c +:+ json_escape s'
  end.

Definition json_dumps (s : string) : string :=
  String dquote (json_escape s) +:+ String dquote "".

(** ** The database connection as state *)

Inductive db_call :=
| Connect (host dbname user password : value)
| Cursor
| Execute (sql : string)
| Commit
| CursorClose
| ConnClose.

(** [conn_open] holds from a successful [psycopg.connect] until a
    successful [conn.close()]; [calls] lists the calls made, latest first. *)
Record db_state := {
  conn_open : bool;
  cursor_open : bool;
  calls : list db_call
}.

(** The body of an answer, the empty text when the handler raised. *)
Definition body_of (o : outcome response) : string :=
  match o with
  | Return r => body r
  | Raise _ => ""
  end.

Definition initial : db_state :=
  {| conn_open := false; cursor_open := false; calls := [] |}.

(** A block that runs against the connection state. *)
Definition db (A : Type) : Type := db_state -> outcome A * db_state.

Definition db_ret {A} (a : A) : db A := fun st => (Return a, st).

Definition db_bind {A B} (m : db A) (k : A -> db B) : db B :=
  fun st =>
    match m st with
    | (Return a, st') => k a st'
    | (Raise e, st') => (Raise e, st')
    end.

(** A step that touches no connection. *)
Definition lift {A} (m : outcome A) : db A := fun st => (m, st).

Notation "x <~ m ;; k" := (db_bind m (fun x => k))
  (at level 100, m at next level, right associativity,
   format "x  <~  m ;;  '/' k").

(** The effect of a completed call on the connection. *)
Definition effect (c : db_call) (st : db_state) : db_state :=
  match c with
  | Connect _ _ _ _ =>
      {| conn_open := true; cursor_open := cursor_open st; calls := calls st |}
  | Cursor =>
      {| conn_open := conn_open st; cursor_open := true; calls := calls st |}
  | CursorClose =>
      {| conn_open := conn_open st; cursor_open := false; calls := calls st |}
  | ConnClose =>
      {| conn_open := false; cursor_open := false; calls := calls st |}
  | Execute _ | Commit => st
  end.

Section Collaborators.

(** boto3: [client.get_secret_value(SecretId=...)], as the fields of the
    response; [bytes.decode('utf-8')]; [json.loads] of an object. *)
Variable get_secret_value : string -> outcome (gmap string string).
Variable decode_utf8 : string -> outcome string.
Variable json_loads : string -> outcome (gmap string value).
(** psycopg: which exception, if any, a call raises. *)
Variable psycopg_raises : db_call -> option exn.

Definition get_secret (secret_name : string) : outcome (gmap string value) :=
  response ← get_secret_value secret_name;
  match response !! "SecretString" with
  | Some s => json_loads s
  | None =>
      match response !! "SecretBinary" with
      | Some b => text ← decode_utf8 b; json_loads text
      | None => Raise (KeyError "SecretBinary")
      end
  end.

(** [secret[k]] *)
Definition subscript (secret : gmap string value) (k : string) : outcome value :=
  match secret !! k with
  | Some v => Return v
  | None => Raise (KeyError k)
  end.

(** One call into psycopg: it is recorded, and takes effect unless it raises. *)
Definition call (c : db_call) : db unit :=
  fun st =>
    let st' := {| conn_open := conn_open st; cursor_open := cursor_open st;
                  calls := c :: calls st |} in
    match psycopg_raises c with
    | Some e => (Raise e, st')
    | None => (Return tt, effect c st')
    end.

Definition create_extension_sql (vector_dimensions : string) : string :=
  "CREATE EXTENSION IF NOT EXISTS vector WITH (dim = " +:+ vector_dimensions +:+ ");".

Definition success_body (vector_dimensions : string) : string :=
  json_dumps ("Vector extension with dimensions " +:+ vector_dimensions
              +:+ " created successfully!").

Definition error_body (e : exn) : string :=
  json_dumps ("Error creating vector extension: " +:+ str e).

(** The [try] block of [handler]. *)
Definition handler_try (environ : gmap string string)
  (db_secret_arn vector_dimensions : string) : db response :=
  secret <~ lift (get_secret db_secret_arn) ;;
  let db_host := environ_get environ "DB_HOST" in
  let db_name := environ_get environ "DB_NAME" in
  db_user <~ lift (subscript secret "username") ;;
  db_password <~ lift (subscript secret "password") ;;
  if negb (forallb truthy [db_host; db_name; db_user; db_password]) then
    lift (Raise (ValueError "Missing one or more database connection parameters."))
  else
    _ <~ call (Connect db_host db_name db_user db_password) ;;
    _ <~ call Cursor ;;
    _ <~ call (Execute (create_extension_sql vector_dimensions)) ;;
    _ <~ call Commit ;;
    _ <~ call CursorClose ;;
    _ <~ call ConnClose ;;
    db_ret {| statusCode := 200; body := success_body vector_dimensions |}.

(** The two guards stand before the [try]; [except Exception] turns every
    exception of the block into a response.  The event is only printed. *)
Definition handler (environ : gmap string string) : db response :=
  fun st =>
    let db_secret_arn := environ_get environ "DB_SECRET_ARN" in
    let vector_dimensions := environ_get environ "VECTOR_DIMENTIONS" in
    if negb (truthy db_secret_arn) then
      (Raise (ValueError "DB_SECRET_ARN environment variable not set."), st)
    else if negb (truthy vector_dimensions) then
      (Raise (ValueError "VECTOR_DIMENTIONS environment variable not set."), st)
    else
      match handler_try environ (format db_secret_arn) (format vector_dimensions) st with
      | (Return r, st') => (Return r, st')
      | (Raise e, st') => (Return {| statusCode := 500; body := error_body e |}, st')
      end.

End Collaborators.

End Legacy.

(* ===================================================================== *)
(** * Concrete collaborators and environments for the examples *)
(* ===================================================================== *)

Module Examples.

Import Py.

(** [x in s] for two strings. *)
Fixpoint contains (x s : string) : bool :=
  String.prefix x s
  || match s with
     | EmptyString => false
     | String _ s' => contains x s'
     end.

(** An event is represented by its headers; validation and parsing succeed. *)
Definition validate_ok (ev : gmap string value) : outcome unit := Return tt.
Definition parse_ok (ev : gmap string value) : outcome (gmap string value) :=
  Return ev.
Definition parse_broken (ev : gmap string value) : outcome (gmap string value) :=
  Raise (Other "AttributeError" "'NoneType' object has no attribute 'items'").

Definition engine_ok (url : string) : outcome unit := Return tt.
Definition ainit_ok (e : unit) (table_name : value) (vector_size : Z)
  : outcome unit := Return tt.
Definition ainit_down (e : unit) (table_name : value) (vector_size : Z)
  : outcome unit :=
  Raise (Other "OperationalError" "connection refused").

Definition digit_value (c : ascii) : option Z :=
  let n := nat_of_ascii c in
  if ((48 <=? n) && (n <=? 57))%nat then Some (Z.of_nat (n - 48)) else None.

Fixpoint digits (acc : Z) (s : string) : option Z :=
  match s with
  | EmptyString => Some acc
  | String c s' =>
      match digit_value c with
      | Some d => digits (10 * acc + d) s'
      | None => None
      end
  end.

(** [int] on plain runs of decimal digits; everything else is refused. *)
Definition int_digits (s : string) : option Z :=
  match s with
  | EmptyString => None
  | _ => digits 0 s
  end.

Definition event_embeddings : gmap string value :=
  {[ "x-table-name" := VStr "embeddings" ]}.

Definition env_with (driver password dims : string) : gmap string string :=
  list_to_map
    [("DB_NAME", "app"); ("DB_USER", "u"); ("DB_HOST", "db.example.com");
     ("DB_PORT", "5432"); ("DB_PASSWORD", password);
     ("EMBEDDING_MODEL_DIMENSIONS", dims); ("PGVECTOR_DRIVER", driver)].

Definition env_full : gmap string string := env_with "psycopg" "p" "1536".
Definition env_empty_password : gmap string string := env_with "psycopg" "" "1536".
Definition env_asyncpg : gmap string string := env_with "asyncpg" "p" "1536".
Definition env_bad_dims : gmap string string := env_with "psycopg" "p" "large".
Definition env_all_empty : gmap string string :=
  list_to_map (map (fun k => (k, "")) TableHandler.db_keys).

(** The legacy entry point. *)
Definition legacy_env : gmap string string :=
  list_to_map
    [("DB_SECRET_ARN", "arn:aws:secretsmanager:eu-west-1:1:secret:db");
     ("VECTOR_DIMENTIONS", "1536"); ("DB_HOST", "db.internal"); ("DB_NAME", "app")].
Definition legacy_env_no_dims : gmap string string :=
  delete "VECTOR_DIMENTIONS" legacy_env.

Definition secret_response (arn : string) : outcome (gmap string string) :=
  Return {[ "SecretString" := "{...}" ]}.
Definition decode_ok (b : string) : outcome string := Return b.
Definition secret_admin (text : string) : outcome (gmap string value) :=
  Return (<[ "username" := VStr "admin" ]> {[ "password" := VStr "hunter2" ]}).

Definition auth_failure : exn :=
  Other "OperationalError"
    "connection to server at db.internal, port 5432 failed: password authentication failed for user admin".

Definition psycopg_ok (c : Legacy.db_call) : option exn := None.
Definition psycopg_no_login (c : Legacy.db_call) : option exn :=
  match c with
  | Legacy.Connect _ _ _ _ => Some auth_failure
  | _ => None
  end.
Definition psycopg_no_extension (c : Legacy.db_call) : option exn :=
  match c with
  | Legacy.Execute _ => Some (Other "FeatureNotSupported" "extension is not available")
  | _ => None
  end.
Definition psycopg_lost (c : Legacy.db_call) : option exn :=
  match c with
  | Legacy.Execute _ =>
      Some (Other "OperationalError"
              "connection to server at db.internal, port 5432, user admin was lost")
  | _ => None
  end.

End Examples.

(* ===================================================================== *)
(** * The specification's table identifier *)
(* ===================================================================== *)

Module Spec.

Definition is_letter (c : ascii) : bool :=
  let n := nat_of_ascii c in
  (((65 <=? n) && (n <=? 90)) || ((97 <=? n) && (n <=? 122)))%nat.

Definition is_digit (c : ascii) : bool :=
  let n := nat_of_ascii c in ((48 <=? n) && (n <=? 57))%nat.

Definition is_underscore (c : ascii) : bool := Ascii.eqb c "_".

Fixpoint all_chars (f : ascii -> bool) (s : string) : bool :=
  match s with
  | EmptyString => true
  | String c s' => f c && all_chars f s'
  end.

(** The whole string is a letter or underscore followed by letters, digits
    and underscores only. *)
Definition fully_matches (s : string) : bool :=
  match s with
  | EmptyString => false
  | String c s' =>
      (is_letter c || is_underscore c)
      && all_chars (fun c => is_letter c || is_digit c || is_underscore c) s'
  end.

(** The four rules of the table identifier. *)
Definition table_identifier (s : string) : Prop :=
  s <> EmptyString
  /\ (String.length s <= 63)%nat
  /\ fully_matches s = true
  /\ Py.lower s ∉ TableHandler.reserved_keywords.

End Spec.

(* ===================================================================== *)
(** * Vocabulary for the further properties *)
(* ===================================================================== *)

Module Facts.

Import Py.

(** The characters [' '..'~']. *)
Definition is_printable (c : ascii) : bool :=
  let n := nat_of_ascii c in ((32 <=? n) && (n <=? 126))%nat.

(** Printable characters that [json.dumps] writes as they are. *)
Definition is_plain (c : ascii) : bool :=
  is_printable c && negb (Ascii.eqb c dquote) && negb (Ascii.eqb c "\").

(** The calls of the legacy handler's success path, in program order. *)
Definition legacy_script (host dbname user password : value) (dims : string)
  : list Legacy.db_call :=
  [Legacy.Connect host dbname user password; Legacy.Cursor;
   Legacy.Execute (Legacy.create_extension_sql dims); Legacy.Commit;
   Legacy.CursorClose; Legacy.ConnClose].

Definition hunter : gmap string value :=
  <[ "username" := VStr "admin" ]> {[ "password" := VStr "hunter2" ]}.

Definition secret_no_user (text : string) : outcome (gmap string value) :=
  Return {[ "password" := VStr "hunter2" ]}.

Definition event_of (table_name : value) : gmap string value :=
  {[ "x-table-name" := table_name ]}.

End Facts.

(* ===================================================================== *)
(** * The table-name validator *)
(* ===================================================================== *)

Section Validator.

Import Py Re TableHandler Spec.

#[local] Arguments in_class : simpl never.

Lemma head_class_spec c :
  in_class head_class c = is_letter c || is_underscore c.
Proof. destruct c as [[] [] [] [] [] [] [] []]; reflexivity. Qed.

Lemma tail_class_spec c :
  in_class tail_class c = is_letter c || is_digit c || is_underscore c.
Proof. destruct c as [[] [] [] [] [] [] [] []]; reflexivity. Qed.

Lemma run_many_tail s b :
  run [Many tail_class; Eol] b s = tail_then_eol s.
Proof.
  revert b. induction s as [|c s IH]; intros b; simpl; [reflexivity|].
  simpl in IH. rewrite (IH false). rewrite !andb_true_r. reflexivity.
Qed.

Lemma re_match_unfold s :
  re_match table_name_pattern s =
  match s with
  | EmptyString => false
  | String c s' => in_class head_class c && tail_then_eol s'
  end.
Proof.
  unfold re_match, table_name_pattern.
  destruct s as [|c s]; [reflexivity|].
  change (run [Bol; One head_class; Many tail_class; Eol] true (String c s))
    with (true && (in_class head_class c && run [Many tail_class; Eol] false s)).
  rewrite run_many_tail. reflexivity.
Qed.

Lemma tail_then_eol_spec s :
  tail_then_eol s = true <->
  exists w, all_chars (fun c => is_letter c || is_digit c || is_underscore c) w = true
            /\ (s = w \/ s = w +:+ nl).
Proof.
  induction s as [|c s IH]; simpl.
  - split; [intros _; exists ""; simpl; auto|auto].
  - rewrite orb_true_iff, andb_true_iff, IH. split.
    + intros [[Hc [w [Hw Hs]]] | He].
      * exists (String c w). simpl. rewrite <- tail_class_spec, Hc, Hw.
        split; [reflexivity|]. destruct Hs as [-> | ->]; auto.
      * destruct s; [|discriminate]. apply Ascii.eqb_eq in He. subst c.
        exists "". simpl. auto.
    + intros [w [Hw Hs]]. destruct w as [|d w]; simpl in *.
      * destruct Hs as [Hs | Hs]; [discriminate|].
        injection Hs as -> ->. right. reflexivity.
      * apply andb_true_iff in Hw as [Hd Hw]. left.
        assert (c = d /\ (s = w \/ s = w +:+ nl)) as [-> Hs'].
        { destruct Hs as [Hs | Hs]; injection Hs as -> ->; auto. }
        rewrite tail_class_spec, Hd. split; [reflexivity|]. exists w. auto.
Qed.

(** [re.match] with the source's pattern accepts exactly the identifiers
    and the identifiers followed by one newline. *)
Lemma re_match_table_name_pattern s :
  re_match table_name_pattern s = true <->
  exists w, fully_matches w = true /\ (s = w \/ s = w +:+ nl).
Proof.
  rewrite re_match_unfold. destruct s as [|c s].
  - split; [discriminate|].
    intros [w [Hw [<- | Hs]]]; [discriminate Hw|].
    destruct w; [discriminate Hw | discriminate Hs].
  - rewrite andb_true_iff, tail_then_eol_spec, head_class_spec. split.
    + intros [Hc [w [Hw Hs]]]. exists (String c w). simpl.
      rewrite Hc, Hw. split; [reflexivity|]. destruct Hs as [-> | ->]; auto.
    + intros [w [Hw Hs]]. destruct w as [|d w]; [discriminate Hw|].
      simpl in Hw. apply andb_true_iff in Hw as [Hd Hw].
      assert (c = d /\ (s = w \/ s = w +:+ nl)) as [-> Hs'].
      { destruct Hs as [Hs | Hs]; injection Hs as -> ->; auto. }
      split; [assumption|]. exists w. auto.
Qed.

Lemma validate_true_iff s :
  _validate_table_name s = true <->
  s <> EmptyString /\ (String.length s <= 63)%nat
  /\ re_match table_name_pattern s = true
  /\ lower s ∉ reserved_keywords.
Proof.
  unfold _validate_table_name.
  destruct s as [|c s]; simpl is_empty; cbv iota.
  - split; [discriminate | intros [H _]; congruence].
  - destruct (Nat.ltb_spec 63 (String.length (String c s))) as [Hl|Hl].
    + split; [discriminate | intros (_ & H & _); lia].
    + destruct (re_match table_name_pattern (String c s)); simpl.
      * case_bool_decide as Hr.
        -- split; [discriminate | intros (_ & _ & _ & H); contradiction].
        -- split; [intros _; repeat split; auto; discriminate | reflexivity].
      * split; [discriminate | intros (_ & _ & H & _); discriminate].
Qed.

(** Every table identifier of the specification is accepted. *)
Lemma validate_accepts_identifiers s :
  table_identifier s -> _validate_table_name s = true.
Proof.
  intros (Hne & Hlen & Hm & Hr). apply validate_true_iff.
  repeat split; auto. apply re_match_table_name_pattern. exists s. auto.
Qed.

(** What the validator accepts, exactly: the identifiers, and the
    identifiers followed by one newline (of at most 63 characters in all,
    the reserved words being compared with the newline attached). *)
Lemma validate_exact s :
  _validate_table_name s = true <->
  table_identifier s
  \/ exists w, s = w +:+ nl /\ fully_matches w = true
               /\ (String.length s <= 63)%nat /\ lower s ∉ reserved_keywords.
Proof.
  rewrite validate_true_iff, re_match_table_name_pattern. split.
  - intros (Hne & Hlen & (w & Hw & [-> | ->]) & Hr).
    + left. repeat split; auto.
    + right. exists w. auto.
  - intros [(Hne & Hlen & Hm & Hr) | (w & -> & Hw & Hlen & Hr)].
    + repeat split; auto. exists s. auto.
    + repeat split; auto; [destruct w; discriminate | exists w; auto].
Qed.

End Validator.

(** C1.  The validator does not implement the four rules exactly: a valid
    identifier followed by one newline is accepted, although it does not
    fully match the pattern; this is the behaviour of [$] under [re.match].
    The docstring of the function asks for letters, numbers and underscores
    only. *)
Theorem validate_accepts_trailing_newline :
  TableHandler._validate_table_name ("abc" +:+ Py.nl) = true
  /\ Spec.fully_matches ("abc" +:+ Py.nl) = false
  /\ ~ Spec.table_identifier ("abc" +:+ Py.nl)
  /\ TableHandler._validate_table_name ("select" +:+ Py.nl) = true.
Proof.
  split; [vm_compute; reflexivity|].
  split; [vm_compute; reflexivity|].
  split; [|vm_compute; reflexivity].
  intros (_ & _ & H & _). vm_compute in H. discriminate.
Qed.

(* ===================================================================== *)
(** * The configuration reconciler *)
(* ===================================================================== *)

Section Reconciler.

Import Py TableHandler.

Lemma filter_nil_of_forallb {A} (f : A -> bool) l :
  forallb f l = true -> List.filter (fun x => negb (f x)) l = [].
Proof.
  induction l as [|a l IH]; simpl; [reflexivity|].
  intros [Ha Hl]%andb_true_iff. rewrite Ha. simpl. auto.
Qed.

Lemma filter_nil_of_existsb {A} (f : A -> bool) l :
  existsb f l = false -> List.filter f l = [].
Proof.
  induction l as [|a l IH]; simpl; [reflexivity|].
  intros [Ha Hl]%orb_false_iff. rewrite Ha. auto.
Qed.

Lemma filter_cons_of_existsb {A} (f : A -> bool) l :
  existsb f l = true -> List.filter f l <> [].
Proof.
  induction l as [|a l IH]; simpl; [discriminate|].
  destruct (f a); simpl; [discriminate | exact IH].
Qed.

Lemma filter_cons_of_forallb {A} (f : A -> bool) l :
  forallb f l = false -> List.filter (fun x => negb (f x)) l <> [].
Proof.
  induction l as [|a l IH]; simpl; [discriminate|].
  destruct (f a); simpl; [exact IH | discriminate].
Qed.

Lemma nonempty_false {A} (l : list A) : nonempty l = false <-> l = [].
Proof. destruct l; simpl; split; congruence. Qed.

Lemma nonempty_true {A} (l : list A) : nonempty l = true <-> l <> [].
Proof. destruct l; simpl; split; congruence. Qed.

Lemma read_db_vars_map environ :
  read_db_vars environ = map (fun k => (k, environ_get environ k)) db_keys.
Proof. reflexivity. Qed.

Lemma present_of_map environ l :
  present_of (map (fun k => (k, environ_get environ k)) l)
  = List.filter (is_set environ) l.
Proof.
  unfold present_of, is_set. induction l as [|k l IH]; simpl; [reflexivity|].
  destruct (truthy (environ_get environ k)); simpl; congruence.
Qed.

Lemma missing_of_map environ l :
  missing_of (map (fun k => (k, environ_get environ k)) l)
  = List.filter (fun k => negb (is_set environ k)) l.
Proof.
  unfold missing_of, is_set. induction l as [|k l IH]; simpl; [reflexivity|].
  destruct (truthy (environ_get environ k)); simpl; congruence.
Qed.

(** The reconciler in terms of the two partitions of the seven keys. *)
Lemma check_unfold environ :
  _check_database_env_vars environ =
  let present_vars := List.filter (is_set environ) db_keys in
  let missing_vars := List.filter (fun k => negb (is_set environ k)) db_keys in
  if nonempty present_vars && nonempty missing_vars then
    Raise (PartialDatabaseCredentialsError (partial_message present_vars missing_vars))
  else Return (read_db_vars environ).
Proof.
  unfold _check_database_env_vars.
  rewrite read_db_vars_map, present_of_map, missing_of_map. reflexivity.
Qed.

Lemma check_inv environ d :
  _check_database_env_vars environ = Return d -> d = read_db_vars environ.
Proof.
  rewrite check_unfold. cbv zeta.
  destruct (nonempty _ && nonempty _); congruence.
Qed.

Lemma values_of_forallb environ (b : bool) l :
  forallb (fun k => eqb (is_set environ k) b) l = true ->
  Forall (fun kv : string * value => truthy (snd kv) = b)
         (map (fun k => (k, environ_get environ k)) l).
Proof.
  induction l as [|k l IH]; simpl; [constructor|].
  intros [Hk Hl]%andb_true_iff. constructor; [|auto].
  simpl. apply eqb_prop in Hk. exact Hk.
Qed.

Lemma forallb_eqb_true {A} (f : A -> bool) l :
  forallb f l = true -> forallb (fun k => eqb (f k) true) l = true.
Proof.
  induction l as [|a l IH]; simpl; [reflexivity|].
  intros [Ha Hl]%andb_true_iff. rewrite Ha. simpl. auto.
Qed.

Lemma existsb_eqb_false {A} (f : A -> bool) l :
  existsb f l = false -> forallb (fun k => eqb (f k) false) l = true.
Proof.
  induction l as [|a l IH]; simpl; [reflexivity|].
  intros [Ha Hl]%orb_false_iff. rewrite Ha. simpl. auto.
Qed.

(** C2.  Trichotomy of the reconciler, a key being set when its value is
    truthy: with all seven keys set it returns the bundle, every value
    present; with none set it returns the bundle, every value absent or
    empty; otherwise both partitions are non-empty and it raises
    [PartialDatabaseCredentialsError] whose message lists the present keys
    and the missing keys. *)
Theorem check_env_trichotomy (environ : gmap string string) :
  let db_vars := read_db_vars environ in
  let present_vars := List.filter (is_set environ) db_keys in
  let missing_vars := List.filter (fun k => negb (is_set environ k)) db_keys in
  map fst db_vars = db_keys
  /\ (forallb (is_set environ) db_keys = true ->
      _check_database_env_vars environ = Return db_vars
      /\ Forall (fun kv => truthy (snd kv) = true) db_vars)
  /\ (existsb (is_set environ) db_keys = false ->
      _check_database_env_vars environ = Return db_vars
      /\ Forall (fun kv => truthy (snd kv) = false) db_vars)
  /\ (existsb (is_set environ) db_keys = true ->
      forallb (is_set environ) db_keys = false ->
      present_vars <> [] /\ missing_vars <> []
      /\ _check_database_env_vars environ =
         Raise (PartialDatabaseCredentialsError
                  ("Some database credentials missing. Present: "
                   +:+ repr_list present_vars +:+ ", Missing: "
                   +:+ repr_list missing_vars))).
Proof.
  cbv zeta. split; [reflexivity|]. rewrite check_unfold. cbv zeta.
  split; [|split].
  - intros Hall. rewrite (filter_nil_of_forallb _ _ Hall).
    rewrite andb_false_r. split; [reflexivity|].
    rewrite read_db_vars_map. apply values_of_forallb, forallb_eqb_true, Hall.
  - intros Hnone. rewrite (filter_nil_of_existsb _ _ Hnone).
    split; [reflexivity|].
    rewrite read_db_vars_map. apply values_of_forallb, existsb_eqb_false, Hnone.
  - intros Hsome Hnot.
    pose proof (filter_cons_of_existsb _ _ Hsome) as Hp.
    pose proof (filter_cons_of_forallb _ _ Hnot) as Hm.
    split; [exact Hp|]. split; [exact Hm|].
    apply nonempty_true in Hp, Hm. rewrite Hp, Hm. reflexivity.
Qed.

Lemma check_env_trichotomy_witness :
  _check_database_env_vars Examples.env_full
    = Return (read_db_vars Examples.env_full)
  /\ _check_database_env_vars ∅ = Return (read_db_vars ∅)
  /\ _check_database_env_vars Examples.env_empty_password =
     Raise (PartialDatabaseCredentialsError
              "Some database credentials missing. Present: ['DB_NAME', 'DB_USER', 'DB_HOST', 'DB_PORT', 'EMBEDDING_MODEL_DIMENSIONS', 'PGVECTOR_DRIVER'], Missing: ['DB_PASSWORD']").
Proof.
  split; [|split].
  - destruct (check_env_trichotomy Examples.env_full) as (_ & Hall & _).
    apply Hall. vm_compute. reflexivity.
  - destruct (check_env_trichotomy ∅) as (_ & _ & Hnone & _).
    apply Hnone. vm_compute. reflexivity.
  - destruct (check_env_trichotomy Examples.env_empty_password)
      as (_ & _ & _ & Hmixed).
    apply Hmixed; vm_compute; reflexivity.
Defined.

End Reconciler.

Section Truthiness.

Import Py TableHandler.

Lemma is_set_empty_string environ k :
  environ !! k = Some "" -> is_set environ k = false.
Proof. intros H. unfold is_set, environ_get. rewrite H. reflexivity. Qed.

Lemma read_all_empty environ l :
  forallb (fun k => bool_decide (environ !! k = Some "")) l = true ->
  map (fun k => (k, environ_get environ k)) l = map (fun k => (k, VStr "")) l
  /\ existsb (is_set environ) l = false.
Proof.
  induction l as [|k l IH]; simpl; [auto|].
  intros [Hk Hl]%andb_true_iff. apply bool_decide_eq_true in Hk.
  destruct (IH Hl) as [-> ->]. rewrite (is_set_empty_string _ _ Hk).
  unfold environ_get. rewrite Hk. auto.
Qed.

(** C10.  The reconciler partitions by truthiness: a key set to the empty
    string is among the missing ones; with the other six keys non-empty and
    [DB_PASSWORD] empty it raises [PartialDatabaseCredentialsError] naming
    [DB_PASSWORD] as the one missing key; with all seven keys set to the
    empty string it returns the bundle and raises nothing. *)
Theorem empty_string_is_missing (environ : gmap string string) :
  (forall k, k ∈ db_keys -> environ !! k = Some "" ->
             k ∈ missing_of (read_db_vars environ)
             /\ k ∉ present_of (read_db_vars environ))
  /\ (environ !! "DB_PASSWORD" = Some "" ->
      forallb (is_set environ)
        ["DB_NAME"; "DB_USER"; "DB_HOST"; "DB_PORT";
         "EMBEDDING_MODEL_DIMENSIONS"; "PGVECTOR_DRIVER"] = true ->
      missing_of (read_db_vars environ) = ["DB_PASSWORD"]
      /\ _check_database_env_vars environ =
         Raise (PartialDatabaseCredentialsError
                  "Some database credentials missing. Present: ['DB_NAME', 'DB_USER', 'DB_HOST', 'DB_PORT', 'EMBEDDING_MODEL_DIMENSIONS', 'PGVECTOR_DRIVER'], Missing: ['DB_PASSWORD']"))
  /\ (forallb (fun k => bool_decide (environ !! k = Some "")) db_keys = true ->
      missing_of (read_db_vars environ) = db_keys
      /\ _check_database_env_vars environ =
         Return (map (fun k => (k, VStr "")) db_keys)).
Proof.
  split; [|split].
  - intros k Hin Hk. pose proof (is_set_empty_string _ _ Hk) as Hs.
    rewrite read_db_vars_map, missing_of_map, present_of_map.
    rewrite !list_elem_of_In, !filter_In, <- !list_elem_of_In, Hs.
    split; [auto | intros [_ ?]; discriminate].
  - intros Hp Hsix. pose proof (is_set_empty_string _ _ Hp) as Hs.
    simpl in Hsix. rewrite !andb_true_iff in Hsix.
    destruct Hsix as (H1 & H2 & H3 & H4 & H5 & H6 & _).
    rewrite check_unfold, read_db_vars_map, missing_of_map.
    unfold db_keys. cbn [List.filter]. rewrite H1, H2, H3, H4, H5, H6, Hs.
    split; reflexivity.
  - intros Hall. rewrite check_unfold, read_db_vars_map, missing_of_map.
    destruct (read_all_empty _ _ Hall) as [Hmap Hnone].
    rewrite (filter_nil_of_existsb _ _ Hnone), Hmap. cbv zeta. simpl nonempty.
    split; [|reflexivity].
    clear Hmap. revert Hnone. generalize db_keys. intros l.
    induction l as [|k l IH]; simpl; [reflexivity|].
    intros [-> Hl]%orb_false_iff. simpl. f_equal. auto.
Qed.

Lemma empty_string_is_missing_witness :
  "DB_PASSWORD" ∈ missing_of (read_db_vars Examples.env_empty_password)
  /\ _check_database_env_vars Examples.env_empty_password =
     Raise (PartialDatabaseCredentialsError
              "Some database credentials missing. Present: ['DB_NAME', 'DB_USER', 'DB_HOST', 'DB_PORT', 'EMBEDDING_MODEL_DIMENSIONS', 'PGVECTOR_DRIVER'], Missing: ['DB_PASSWORD']")
  /\ _check_database_env_vars Examples.env_all_empty =
     Return (map (fun k => (k, VStr "")) db_keys).
Proof.
  split; [|split].
  - destruct (empty_string_is_missing Examples.env_empty_password) as (Hk & _).
    apply Hk; [|vm_compute; reflexivity].
    apply list_elem_of_In. vm_compute. tauto.
  - destruct (empty_string_is_missing Examples.env_empty_password)
      as (_ & Hpw & _).
    apply Hpw; vm_compute; reflexivity.
  - destruct (empty_string_is_missing Examples.env_all_empty) as (_ & _ & Hall).
    apply Hall. vm_compute. reflexivity.
Defined.

End Truthiness.

(* ===================================================================== *)
(** * The connection-target builder *)
(* ===================================================================== *)

Section Builder.

Import Py TableHandler.

(** C4.  With driver "psycopg" the builder returns the descriptor made of
    "postgresql+psycopg://", user, ":", password, "@", host, ":", port, "/"
    and database, each argument as its own text; a port given as the
    integer 5432 is written "5432". *)
Theorem connection_string_psycopg :
  (forall host port database user password : value,
      _connection_string_from_db_params
        (VStr "psycopg") host port database user password
      = Return ("postgresql+psycopg://" +:+ format user +:+ ":"
                +:+ format password +:+ "@" +:+ format host +:+ ":"
                +:+ format port +:+ "/" +:+ format database))
  /\ (forall host port database user password : string,
      _connection_string_from_db_params
        (VStr "psycopg") (VStr host) (VStr port) (VStr database)
        (VStr user) (VStr password)
      = Return ("postgresql+psycopg://" +:+ user +:+ ":" +:+ password +:+ "@"
                +:+ host +:+ ":" +:+ port +:+ "/" +:+ database))
  /\ _connection_string_from_db_params
       (VStr "psycopg") (VStr "db.example.com") (VInt 5432) (VStr "app")
       (VStr "u") (VStr "p")
     = Return "postgresql+psycopg://u:p@db.example.com:5432/app".
Proof.
  split; [|split]; intros; reflexivity.
Qed.

Lemma builder_rejects driver host port database user password :
  eq_str driver "psycopg" = false ->
  _connection_string_from_db_params driver host port database user password
  = Raise (NotImplementedError "Only psycopg3 driver is supported").
Proof.
  intros H. unfold _connection_string_from_db_params. rewrite H. reflexivity.
Qed.

Lemma eq_str_true v s : eq_str v s = true <-> v = VStr s.
Proof.
  destruct v; simpl; try (split; [discriminate | congruence]).
  rewrite String.eqb_eq. split; congruence.
Qed.

End Builder.

(* ===================================================================== *)
(** * The header-driven handler *)
(* ===================================================================== *)

Section Orchestrator.

Import Py TableHandler.

Context {event engine : Type}.
Variable validate_event_headers : event -> outcome unit.
Variable parse_event_headers : event -> outcome (gmap string value).
Variable from_connection_string : string -> outcome engine.
Variable ainit_vectorstore_table : engine -> value -> Z -> outcome unit.
Variable int_of_str : string -> option Z.

Abbreviation extract_block := (extract_try validate_event_headers parse_event_headers).
Abbreviation extract :=
  (_extract_table_name_from_headers validate_event_headers parse_event_headers).
Abbreviation handler_block :=
  (handler_try validate_event_headers parse_event_headers
     from_connection_string ainit_vectorstore_table int_of_str).
Abbreviation run_handler :=
  (handler validate_event_headers parse_event_headers
     from_connection_string ainit_vectorstore_table int_of_str).

Lemma call_validate_true v :
  call_validate_table_name v = Return true ->
  exists s, v = VStr s /\ _validate_table_name s = true.
Proof.
  unfold call_validate_table_name.
  destruct (truthy v); simpl; [|discriminate].
  destruct v as [|s|z|[n|] t x]; try discriminate.
  - intros [= H]. eauto.
  - destruct (63 <? n)%nat; discriminate.
Qed.

(** What leaves the [try] block of the extractor normally is a string that
    the validator accepted. *)
Lemma extract_block_return ev v :
  extract_block ev = Return v ->
  exists s, v = VStr s /\ _validate_table_name s = true.
Proof.
  unfold extract_try.
  destruct (validate_event_headers ev) as [[]|e]; simpl; [|discriminate].
  destruct (parse_event_headers ev) as [headers|e]; simpl; [|discriminate].
  destruct (truthy (headers_get headers "x-table-name")); simpl; [|discriminate].
  destruct (call_validate_table_name _) as [[|]|e] eqn:Hv; simpl; try discriminate.
  intros [= <-]. apply call_validate_true, Hv.
Qed.

Lemma extract_of_return ev v :
  extract_block ev = Return v -> extract ev = Return v.
Proof. intros H. unfold _extract_table_name_from_headers. rewrite H. reflexivity. Qed.

Lemma extract_of_raise ev e :
  extract_block ev = Raise e ->
  extract ev =
  match e with
  | SchemaValidationError _ => Raise e
  | _ => Raise (TableNameValidationError
                  ("Failed to extract table name from headers: " +:+ str e))
  end.
Proof. intros H. unfold _extract_table_name_from_headers. rewrite H. reflexivity. Qed.

Lemma extract_raises ev e :
  extract ev = Raise e ->
  (exists m, e = SchemaValidationError m /\ extract_block ev = Raise e)
  \/ (exists m, e = TableNameValidationError m).
Proof.
  unfold _extract_table_name_from_headers.
  destruct (extract_block ev) as [v|e'] eqn:Hb; [discriminate|].
  destruct e'; intros [= <-]; eauto.
Qed.

(** The handler's answer, read off the outcome of its [try] block. *)
Lemma handler_of_raise ev environ e :
  handler_block ev environ = Raise e ->
  run_handler ev environ =
  Return (if named_category e then
            match e with
            | PartialDatabaseCredentialsError _ =>
                {| statusCode := 400;
                   body := "Database credentials error: " +:+ str e |}
            | _ => {| statusCode := 400; body := "Validation error: " +:+ str e |}
            end
          else {| statusCode := 500; body := generic_failure |}).
Proof. intros H. unfold handler. rewrite H. destruct e; reflexivity. Qed.

(** Once the table name is extracted and the environment reconciled, the
    rest of the [try] block runs on the values read from the environment. *)
Lemma handler_block_after_setup ev environ t d :
  extract ev = Return t ->
  _check_database_env_vars environ = Return d ->
  handler_block ev environ =
  (connection_string ← url_of environ;
   engine ← from_connection_string connection_string;
   embedding_dimensions ← py_int int_of_str
     (environ_get environ "EMBEDDING_MODEL_DIMENSIONS");
   _ ← ainit_vectorstore_table engine t embedding_dimensions;
   Return {| statusCode := 200; body := success_message t |}).
Proof.
  intros Hext Hchk. unfold handler_try. rewrite Hext. simpl.
  rewrite Hchk. apply check_inv in Hchk. subst d. reflexivity.
Qed.

(** C3 (as the code has it).  A driver other than "psycopg" makes the builder
    raise [NotImplementedError]; the handler has no clause for that class, so
    the failure falls to [except Exception] and the answer is 500 with the
    generic body. *)
Theorem unsupported_driver_response (ev : event) (environ : gmap string string)
  (driver t : value) :
  eq_str driver "psycopg" = false ->
  (forall host port database user password,
      _connection_string_from_db_params driver host port database user password
      = Raise (NotImplementedError "Only psycopg3 driver is supported"))
  /\ (extract ev = Return t ->
      (exists d, _check_database_env_vars environ = Return d) ->
      environ_get environ "PGVECTOR_DRIVER" = driver ->
      run_handler ev environ =
      Return {| statusCode := 500;
                body := "Failed to create vector table with pgvector extension." |}).
Proof.
  intros Hdrv. split.
  - intros. apply builder_rejects, Hdrv.
  - intros Hext [d Hchk] Henv.
    assert (handler_block ev environ
            = Raise (NotImplementedError "Only psycopg3 driver is supported")) as Hh.
    { rewrite (handler_block_after_setup _ _ _ _ Hext Hchk).
      unfold url_of. rewrite Henv, (builder_rejects _ _ _ _ _ _ Hdrv).
      reflexivity. }
    rewrite (handler_of_raise _ _ _ Hh). reflexivity.
Qed.

(** C7.  When the table name is extracted, the environment reconciled, the
    descriptor built and the engine created, a value of
    [EMBEDDING_MODEL_DIMENSIONS] that [int] refuses makes the handler answer
    500 with the generic body. *)
Theorem unparseable_dimensions_response (ev : event)
  (environ : gmap string string) (t : value) (d : list (string * value))
  (url : string) (eng : engine) (s : string) :
  extract ev = Return t ->
  _check_database_env_vars environ = Return d ->
  url_of environ = Return url ->
  from_connection_string url = Return eng ->
  environ !! "EMBEDDING_MODEL_DIMENSIONS" = Some s ->
  int_of_str s = None ->
  run_handler ev environ =
  Return {| statusCode := 500;
            body := "Failed to create vector table with pgvector extension." |}.
Proof.
  intros Hext Hchk Hurl Heng Hs Hint.
  assert (handler_block ev environ
          = Raise (ValueError ("invalid literal for int() with base 10: "
                               +:+ repr_plain s))) as Hh.
  { rewrite (handler_block_after_setup _ _ _ _ Hext Hchk).
    rewrite Hurl. simpl. rewrite Heng. simpl.
    unfold environ_get. rewrite Hs. simpl. rewrite Hint. reflexivity. }
  rewrite (handler_of_raise _ _ _ Hh). reflexivity.
Qed.

(** C9.  Extraction returns a string the validator accepted, or raises the
    [SchemaValidationError] that its [try] block raised, or raises
    [TableNameValidationError]; every other exception of the block, a
    failure of header parsing included, comes out as a
    [TableNameValidationError] carrying its text; and whatever extraction
    raises, the handler answers 400 with a validation error. *)
Theorem extraction_outcomes (ev : event) (environ : gmap string string) :
  ((exists s, extract ev = Return (VStr s) /\ _validate_table_name s = true)
   \/ (exists m, extract_block ev = Raise (SchemaValidationError m)
                 /\ extract ev = Raise (SchemaValidationError m))
   \/ (exists m, extract ev = Raise (TableNameValidationError m)))
  /\ (forall e, extract_block ev = Raise e -> is_schema_error e = false ->
                extract ev =
                Raise (TableNameValidationError
                         ("Failed to extract table name from headers: " +:+ str e)))
  /\ (forall e, validate_event_headers ev = Return tt ->
                parse_event_headers ev = Raise e -> is_schema_error e = false ->
                extract ev =
                Raise (TableNameValidationError
                         ("Failed to extract table name from headers: " +:+ str e)))
  /\ (forall e, extract ev = Raise e ->
                run_handler ev environ =
                Return {| statusCode := 400;
                          body := "Validation error: " +:+ str e |}).
Proof.
  split; [|split; [|split]].
  - destruct (extract_block ev) as [v|e] eqn:Hb.
    + left. destruct (extract_block_return _ _ Hb) as (s & -> & Hs).
      exists s. split; [apply extract_of_return, Hb | exact Hs].
    + right. rewrite (extract_of_raise _ _ Hb). destruct e; eauto.
  - intros e Hb He. rewrite (extract_of_raise _ _ Hb).
    destruct e; try reflexivity; discriminate He.
  - intros e Hv Hp He.
    assert (extract_block ev = Raise e) as Hb.
    { unfold extract_try. rewrite Hv. simpl. rewrite Hp. reflexivity. }
    rewrite (extract_of_raise _ _ Hb).
    destruct e; try reflexivity; discriminate He.
  - intros e He.
    assert (handler_block ev environ = Raise e) as Hh.
    { unfold handler_try. rewrite He. reflexivity. }
    rewrite (handler_of_raise _ _ _ Hh).
    destruct (extract_raises _ _ He) as [(m & -> & _) | (m & ->)]; reflexivity.
Qed.

End Orchestrator.

(* ===================================================================== *)
(** * The legacy handler *)
(* ===================================================================== *)

Section LegacyHandler.

Import Py Legacy.

Variable get_secret_value : string -> outcome (gmap string string).
Variable decode_utf8 : string -> outcome string.
Variable json_loads : string -> outcome (gmap string value).
Variable psycopg_raises : db_call -> option exn.

Abbreviation legacy_block :=
  (Legacy.handler_try get_secret_value decode_utf8 json_loads psycopg_raises).
Abbreviation legacy_handler :=
  (Legacy.handler get_secret_value decode_utf8 json_loads psycopg_raises).
Abbreviation secret_of :=
  (Legacy.get_secret get_secret_value decode_utf8 json_loads).

Lemma legacy_guard_secret environ st :
  truthy (environ_get environ "DB_SECRET_ARN") = false ->
  legacy_handler environ st =
  (Raise (ValueError "DB_SECRET_ARN environment variable not set."), st).
Proof. intros H. unfold Legacy.handler. rewrite H. reflexivity. Qed.

Lemma legacy_guard_dimensions environ st :
  truthy (environ_get environ "DB_SECRET_ARN") = true ->
  truthy (environ_get environ "VECTOR_DIMENTIONS") = false ->
  legacy_handler environ st =
  (Raise (ValueError "VECTOR_DIMENTIONS environment variable not set."), st).
Proof. intros H1 H2. unfold Legacy.handler. rewrite H1, H2. reflexivity. Qed.

(** The [try] block returns only from its last line, after a completed
    [conn.close()]. *)
Lemma legacy_block_return environ arn dims st r st' :
  legacy_block environ arn dims st = (Return r, st') ->
  r = {| statusCode := 200; body := success_body dims |}
  /\ conn_open st' = false
  /\ psycopg_raises ConnClose = None.
Proof.
  unfold Legacy.handler_try, db_bind, lift, call, db_ret.
  repeat (case_match; simplify_eq/=); try (intros [= <- <-]; auto);
    discriminate.
Qed.

Lemma legacy_handler_answers environ st :
  truthy (environ_get environ "DB_SECRET_ARN") = true ->
  truthy (environ_get environ "VECTOR_DIMENTIONS") = true ->
  exists r st', legacy_handler environ st = (Return r, st')
                /\ (statusCode r = 200 \/ statusCode r = 500).
Proof.
  intros H1 H2. unfold Legacy.handler. rewrite H1, H2. simpl.
  destruct (legacy_block environ _ _ st) as [[r|e] st'] eqn:Hb.
  - apply legacy_block_return in Hb as (-> & _). eauto.
  - eauto.
Qed.

(** On the success path the connection is released before the answer. *)
Lemma legacy_success_releases environ st r st' :
  legacy_handler environ st = (Return r, st') ->
  statusCode r = 200 ->
  conn_open st' = false.
Proof.
  unfold Legacy.handler.
  destruct (negb (truthy (environ_get environ "DB_SECRET_ARN"))); [discriminate|].
  destruct (negb (truthy (environ_get environ "VECTOR_DIMENTIONS")));
    [discriminate|].
  destruct (legacy_block environ _ _ st) as [[r0|e] st0] eqn:Hb.
  - intros [= <- <-] _. apply legacy_block_return in Hb. tauto.
  - intros [= <- <-]. simpl. discriminate.
Qed.

(** A failing [cur.execute]: the answer carries the text of the exception,
    and the connection is left open. *)
Lemma legacy_execute_fails environ st arn dims secret u pw e :
  environ !! "DB_SECRET_ARN" = Some arn -> is_empty arn = false ->
  environ !! "VECTOR_DIMENTIONS" = Some dims -> is_empty dims = false ->
  secret_of arn = Return secret ->
  secret !! "username" = Some u -> secret !! "password" = Some pw ->
  forallb truthy [environ_get environ "DB_HOST"; environ_get environ "DB_NAME";
                  u; pw] = true ->
  psycopg_raises (Connect (environ_get environ "DB_HOST")
                    (environ_get environ "DB_NAME") u pw) = None ->
  psycopg_raises Cursor = None ->
  psycopg_raises (Execute (create_extension_sql dims)) = Some e ->
  exists st',
    legacy_handler environ st =
    (Return {| statusCode := 500;
               body := json_dumps ("Error creating vector extension: " +:+ str e) |},
     st')
    /\ conn_open st' = true
    /\ calls st' =
       Execute (create_extension_sql dims) :: Cursor
       :: Connect (environ_get environ "DB_HOST")
            (environ_get environ "DB_NAME") u pw :: calls st.
Proof.
  intros Harn Ha Hdims Hd Hsec Hu Hpw Hall Hconn Hcur Hexe.
  assert (environ_get environ "DB_SECRET_ARN" = VStr arn) as Ea
    by (unfold environ_get; rewrite Harn; reflexivity).
  assert (environ_get environ "VECTOR_DIMENTIONS" = VStr dims) as Ed
    by (unfold environ_get; rewrite Hdims; reflexivity).
  unfold Legacy.handler, Legacy.handler_try, db_bind, lift, call, subscript.
  rewrite Ea, Ed. simpl truthy. rewrite Ha, Hd. simpl negb. cbv iota.
  simpl format. rewrite Hsec, Hu, Hpw, Hall. simpl negb. cbv iota.
  rewrite Hconn. simpl. rewrite Hcur. simpl. rewrite Hexe.
  eexists. split; [reflexivity|]. split; reflexivity.
Qed.

End LegacyHandler.

(* ===================================================================== *)
(** * Failures at the boundary of the two handlers *)
(* ===================================================================== *)

Section Boundary.

Import Py.

Context {event engine : Type}.
Variable validate_event_headers : event -> outcome unit.
Variable parse_event_headers : event -> outcome (gmap string value).
Variable from_connection_string : string -> outcome engine.
Variable ainit_vectorstore_table : engine -> value -> Z -> outcome unit.
Variable int_of_str : string -> option Z.
Variable get_secret_value : string -> outcome (gmap string string).
Variable decode_utf8 : string -> outcome string.
Variable json_loads : string -> outcome (gmap string value).
Variable psycopg_raises : Legacy.db_call -> option exn.

Abbreviation table_block :=
  (TableHandler.handler_try validate_event_headers parse_event_headers
     from_connection_string ainit_vectorstore_table int_of_str).
Abbreviation table_handler :=
  (TableHandler.handler validate_event_headers parse_event_headers
     from_connection_string ainit_vectorstore_table int_of_str).
Abbreviation extraction :=
  (TableHandler._extract_table_name_from_headers
     validate_event_headers parse_event_headers).
Abbreviation extension_handler :=
  (Legacy.handler get_secret_value decode_utf8 json_loads psycopg_raises).

Lemma table_block_return ev environ r :
  table_block ev environ = Return r -> TableHandler.statusCode r = 200.
Proof.
  unfold TableHandler.handler_try, mbind, outcome_bind, bind.
  repeat (case_match; simplify_eq/=); try discriminate.
  intros [= <-]. reflexivity.
Qed.

(** C5 (as the code has it).  When the schema-management call raises an
    exception outside the three named classes, the header-driven handler
    answers 500 with one fixed body, whatever the event, the environment
    and the exception; the legacy handler answers 500 too, with a body that
    is the JSON text of "Error creating vector extension: " followed by the
    text of the exception. *)
Theorem downstream_failure_response :
  (forall ev environ t d url eng n e,
      extraction ev = Return t ->
      TableHandler._check_database_env_vars environ = Return d ->
      TableHandler.url_of environ = Return url ->
      from_connection_string url = Return eng ->
      TableHandler.py_int int_of_str
        (environ_get environ "EMBEDDING_MODEL_DIMENSIONS") = Return n ->
      ainit_vectorstore_table eng t n = Raise e ->
      TableHandler.named_category e = false ->
      table_handler ev environ =
      Return {| TableHandler.statusCode := 500;
                TableHandler.body :=
                  "Failed to create vector table with pgvector extension." |})
  /\ (forall environ st arn dims secret u pw e,
      environ !! "DB_SECRET_ARN" = Some arn -> is_empty arn = false ->
      environ !! "VECTOR_DIMENTIONS" = Some dims -> is_empty dims = false ->
      Legacy.get_secret get_secret_value decode_utf8 json_loads arn
        = Return secret ->
      secret !! "username" = Some u -> secret !! "password" = Some pw ->
      forallb truthy [environ_get environ "DB_HOST";
                      environ_get environ "DB_NAME"; u; pw] = true ->
      psycopg_raises (Legacy.Connect (environ_get environ "DB_HOST")
                        (environ_get environ "DB_NAME") u pw) = None ->
      psycopg_raises Legacy.Cursor = None ->
      psycopg_raises (Legacy.Execute (Legacy.create_extension_sql dims))
        = Some e ->
      fst (extension_handler environ st) =
      Return {| Legacy.statusCode := 500;
                Legacy.body :=
                  Legacy.json_dumps
                    ("Error creating vector extension: " +:+ str e) |}).
Proof.
  split.
  - intros ev environ t d url eng n e Hext Hchk Hurl Heng Hint Hdown Hcat.
    assert (table_block ev environ = Raise e) as Hb.
    { rewrite (handler_block_after_setup _ _ _ _ _ _ _ _ _ Hext Hchk).
      rewrite Hurl. simpl. rewrite Heng. simpl. rewrite Hint. simpl.
      rewrite Hdown. reflexivity. }
    rewrite (handler_of_raise _ _ _ _ _ _ _ _ Hb), Hcat. reflexivity.
  - intros environ st arn dims secret u pw e
      Harn Ha Hdims Hd Hsec Hu Hpw Hall Hconn Hcur Hexe.
    destruct (legacy_execute_fails get_secret_value decode_utf8 json_loads
                psycopg_raises environ st arn dims secret u pw e
                Harn Ha Hdims Hd Hsec Hu Hpw Hall Hconn Hcur Hexe)
      as (st' & -> & _).
    reflexivity.
Qed.

(** C6 (as the code has it).  The header-driven handler turns every failure
    of its pipeline into a response with status 200, 400 or 500.  The legacy
    handler answers with 200 or 500 once [DB_SECRET_ARN] and
    [VECTOR_DIMENTIONS] are set; when one of them is missing it raises
    [ValueError] to its caller. *)
Theorem failures_at_the_boundary :
  (forall ev environ,
      exists r, table_handler ev environ = Return r
                /\ (TableHandler.statusCode r = 200
                    \/ TableHandler.statusCode r = 400
                    \/ TableHandler.statusCode r = 500))
  /\ (forall environ st,
      truthy (environ_get environ "DB_SECRET_ARN") = true ->
      truthy (environ_get environ "VECTOR_DIMENTIONS") = true ->
      exists r st', extension_handler environ st = (Return r, st')
                    /\ (Legacy.statusCode r = 200 \/ Legacy.statusCode r = 500))
  /\ (forall environ st,
      truthy (environ_get environ "DB_SECRET_ARN") = false ->
      extension_handler environ st =
      (Raise (ValueError "DB_SECRET_ARN environment variable not set."), st))
  /\ (forall environ st,
      truthy (environ_get environ "DB_SECRET_ARN") = true ->
      truthy (environ_get environ "VECTOR_DIMENTIONS") = false ->
      extension_handler environ st =
      (Raise (ValueError "VECTOR_DIMENTIONS environment variable not set."), st)).
Proof.
  split; [|split; [|split]].
  - intros ev environ.
    destruct (table_block ev environ) as [r|e] eqn:Hb.
    + exists r. unfold TableHandler.handler. rewrite Hb.
      split; [reflexivity|]. left. eapply table_block_return, Hb.
    + rewrite (handler_of_raise _ _ _ _ _ _ _ _ Hb).
      eexists. split; [reflexivity|].
      destruct e; simpl; auto.
  - intros. apply legacy_handler_answers; assumption.
  - intros. apply legacy_guard_secret; assumption.
  - intros. apply legacy_guard_dimensions; assumption.
Qed.

End Boundary.

(* ===================================================================== *)
(** * The theorems on concrete invocations *)
(* ===================================================================== *)

Section Invocations.

Import Py Examples.

Abbreviation invoke :=
  (TableHandler.handler validate_ok parse_ok engine_ok ainit_ok int_digits).

(** An unsupported driver is not answered with 400: for "asyncpg" the
    builder raises [NotImplementedError] and the handler answers 500. *)
Lemma unsupported_driver_answer_is_500 :
  TableHandler.eq_str (VStr "asyncpg") "psycopg" = false
  /\ TableHandler.url_of env_asyncpg
     = Raise (NotImplementedError "Only psycopg3 driver is supported")
  /\ exists r, invoke event_embeddings env_asyncpg = Return r
               /\ TableHandler.statusCode r = 500
               /\ TableHandler.statusCode r <> 400.
Proof.
  split; [reflexivity|]. split; [vm_compute; reflexivity|].
  eexists. split; [vm_compute; reflexivity|]. simpl. split; [reflexivity|lia].
Qed.

Lemma unsupported_driver_response_witness :
  invoke event_embeddings env_asyncpg =
  Return {| TableHandler.statusCode := 500;
            TableHandler.body :=
              "Failed to create vector table with pgvector extension." |}.
Proof.
  destruct (unsupported_driver_response validate_ok parse_ok engine_ok ainit_ok
              int_digits event_embeddings env_asyncpg (VStr "asyncpg")
              (VStr "embeddings") eq_refl) as [_ H].
  apply H.
  - vm_compute. reflexivity.
  - eexists. vm_compute. reflexivity.
  - vm_compute. reflexivity.
Defined.

Lemma unparseable_dimensions_response_witness :
  invoke event_embeddings env_bad_dims =
  Return {| TableHandler.statusCode := 500;
            TableHandler.body :=
              "Failed to create vector table with pgvector extension." |}.
Proof.
  apply (unparseable_dimensions_response validate_ok parse_ok engine_ok ainit_ok
           int_digits event_embeddings env_bad_dims (VStr "embeddings")
           (TableHandler.read_db_vars env_bad_dims)
           "postgresql+psycopg://u:p@db.example.com:5432/app" tt "large");
    vm_compute; reflexivity.
Defined.

Lemma extraction_outcomes_witness :
  TableHandler._extract_table_name_from_headers validate_ok parse_broken
    event_embeddings
  = Raise (TableNameValidationError
             "Failed to extract table name from headers: 'NoneType' object has no attribute 'items'")
  /\ TableHandler.handler validate_ok parse_broken engine_ok ainit_ok int_digits
       event_embeddings env_full
     = Return {| TableHandler.statusCode := 400;
                 TableHandler.body :=
                   "Validation error: Failed to extract table name from headers: 'NoneType' object has no attribute 'items'" |}.
Proof.
  destruct (extraction_outcomes validate_ok parse_broken engine_ok ainit_ok
              int_digits event_embeddings env_full) as (_ & Hblock & Hparse & H400).
  split.
  - apply (Hparse (Other "AttributeError"
                     "'NoneType' object has no attribute 'items'"));
      reflexivity.
  - apply (H400 (TableNameValidationError
                   "Failed to extract table name from headers: 'NoneType' object has no attribute 'items'")).
    apply (Hblock (Other "AttributeError"
                     "'NoneType' object has no attribute 'items'"));
      reflexivity.
Defined.

Abbreviation invoke_legacy :=
  (Legacy.handler secret_response decode_ok secret_admin).

(** The body of the legacy handler is not generic: the text of the
    exception, the host and the user name in it included, is in the body,
    and another exception gives another body. *)
Lemma legacy_body_carries_exception_text :
  exists r, fst (invoke_legacy psycopg_lost legacy_env Legacy.initial) = Return r
            /\ Legacy.statusCode r = 500
            /\ contains "db.internal" (Legacy.body r) = true
            /\ contains "user admin" (Legacy.body r) = true
            /\ Legacy.body r <>
               Legacy.body_of
                 (fst (invoke_legacy psycopg_no_extension legacy_env Legacy.initial)).
Proof.
  eexists. split; [vm_compute; reflexivity|].
  repeat split; try (vm_compute; reflexivity).
  vm_compute. discriminate.
Qed.

Lemma downstream_failure_response_witness :
  TableHandler.handler validate_ok parse_ok engine_ok ainit_down int_digits
    event_embeddings env_full
  = Return {| TableHandler.statusCode := 500;
              TableHandler.body :=
                "Failed to create vector table with pgvector extension." |}
  /\ fst (invoke_legacy psycopg_lost legacy_env Legacy.initial)
     = Return {| Legacy.statusCode := 500;
                 Legacy.body :=
                   Legacy.json_dumps
                     "Error creating vector extension: connection to server at db.internal, port 5432, user admin was lost" |}.
Proof.
  destruct (downstream_failure_response validate_ok parse_ok engine_ok ainit_down
              int_digits secret_response decode_ok secret_admin psycopg_lost)
    as [Htable Hlegacy].
  split.
  - apply (Htable event_embeddings env_full (VStr "embeddings")
             (TableHandler.read_db_vars env_full)
             "postgresql+psycopg://u:p@db.example.com:5432/app" tt 1536
             (Other "OperationalError" "connection refused"));
      vm_compute; reflexivity.
  - apply (Hlegacy legacy_env Legacy.initial
             "arn:aws:secretsmanager:eu-west-1:1:secret:db" "1536"
             (<[ "username" := VStr "admin" ]> {[ "password" := VStr "hunter2" ]})
             (VStr "admin") (VStr "hunter2")
             (Other "OperationalError"
                "connection to server at db.internal, port 5432, user admin was lost"));
      vm_compute; reflexivity.
Defined.

(** A failure does leave the legacy handler: on an empty environment
    [ValueError] reaches the caller and there is no response. *)
Lemma legacy_missing_secret_raises :
  invoke_legacy psycopg_ok ∅ Legacy.initial
  = (Raise (ValueError "DB_SECRET_ARN environment variable not set."),
     Legacy.initial)
  /\ ~ (exists r st, invoke_legacy psycopg_ok ∅ Legacy.initial = (Return r, st)).
Proof.
  assert (invoke_legacy psycopg_ok ∅ Legacy.initial
          = (Raise (ValueError "DB_SECRET_ARN environment variable not set."),
             Legacy.initial)) as H by (vm_compute; reflexivity).
  split; [exact H|]. intros (r & st & Hr). rewrite H in Hr. discriminate.
Qed.

Lemma failures_at_the_boundary_witness :
  (exists r st, invoke_legacy psycopg_lost legacy_env Legacy.initial = (Return r, st)
                /\ (Legacy.statusCode r = 200 \/ Legacy.statusCode r = 500))
  /\ invoke_legacy psycopg_lost ∅ Legacy.initial
     = (Raise (ValueError "DB_SECRET_ARN environment variable not set."),
        Legacy.initial)
  /\ invoke_legacy psycopg_lost legacy_env_no_dims Legacy.initial
     = (Raise (ValueError "VECTOR_DIMENTIONS environment variable not set."),
        Legacy.initial).
Proof.
  destruct (failures_at_the_boundary validate_ok parse_ok engine_ok ainit_ok
              int_digits secret_response decode_ok secret_admin psycopg_lost)
    as (_ & Hset & Hsecret & Hdims).
  split; [|split].
  - apply Hset; vm_compute; reflexivity.
  - apply Hsecret. vm_compute. reflexivity.
  - apply Hdims; vm_compute; reflexivity.
Defined.

(** C8.  After a failing [cur.execute] the legacy handler returns its 500
    answer with the connection still open: [conn.close()] is among the calls
    of the success path only. *)
Theorem legacy_connection_left_open :
  exists r st,
    invoke_legacy psycopg_no_extension legacy_env Legacy.initial = (Return r, st)
    /\ Legacy.statusCode r = 500
    /\ Legacy.conn_open st = true
    /\ (Legacy.ConnClose ∉ Legacy.calls st)
    /\ Legacy.calls st =
       [Legacy.Execute "CREATE EXTENSION IF NOT EXISTS vector WITH (dim = 1536);";
        Legacy.Cursor;
        Legacy.Connect (VStr "db.internal") (VStr "app") (VStr "admin")
          (VStr "hunter2")].
Proof.
  eexists. eexists. split; [vm_compute; reflexivity|].
  simpl. repeat split.
  rewrite !elem_of_cons, elem_of_nil. intros [|[|[|]]]; congruence.
Qed.

End Invocations.

(* ===================================================================== *)
(** * Further properties of the validator *)
(* ===================================================================== *)

Section ValidatorFacts.

Import Py Re TableHandler Spec.

#[local] Arguments in_class : simpl never.











(** What the validator refuses: the empty name, a name of more than 63
    characters, a reserved word in any mix of cases, and a name whose first
    character is neither a letter nor an underscore. *)
Theorem validate_refusals :
  _validate_table_name "" = false
  /\ (forall s, (63 < String.length s)%nat -> _validate_table_name s = false)
  /\ (forall s, lower s ∈ reserved_keywords -> _validate_table_name s = false)
  /\ (forall c s, is_letter c || is_underscore c = false ->
                  _validate_table_name (String c s) = false).
Proof.
  split; [reflexivity|]. split; [|split].
  - intros s Hlen. apply not_true_is_false. intros H.
    apply validate_true_iff in H. lia.
  - intros s Hr. apply not_true_is_false. intros H.
    apply validate_true_iff in H. tauto.
  - intros c s Hc. apply not_true_is_false. intros H.
    apply validate_true_iff in H. destruct H as (_ & _ & Hm & _).
    rewrite re_match_unfold, head_class_spec, Hc in Hm. discriminate.
Qed.

Lemma validate_refusals_witness :
  _validate_table_name
    "a_table_name_that_is_much_longer_than_the_sixty_three_characters_allowed"
  = false
  /\ _validate_table_name "PgVector" = false
  /\ _validate_table_name "9lives" = false.
Proof.
  destruct validate_refusals as (_ & Hlong & Hreserved & Hhead).
  split; [|split].
  - apply Hlong. vm_compute. lia.
  - apply Hreserved. apply (bool_decide_unpack _). vm_compute. exact I.
  - apply Hhead. reflexivity.
Defined.

Lemma validate_accepts_identifiers_witness :
  _validate_table_name "embeddings" = true.
Proof.
  apply validate_accepts_identifiers.
  split; [discriminate|]. split; [simpl; lia|]. split; [reflexivity|].
  apply (proj1 (bool_decide_eq_false _)). vm_compute. reflexivity.
Defined.

End ValidatorFacts.

(* ===================================================================== *)
(** * Further properties of the extractor *)
(* ===================================================================== *)

Section ExtractorFacts.

Import Py TableHandler.

Context {event : Type}.
Variable validate_event_headers : event -> outcome unit.
Variable parse_event_headers : event -> outcome (gmap string value).

Abbreviation extract_name :=
  (_extract_table_name_from_headers validate_event_headers parse_event_headers).

Lemma validate_true_nonempty s :
  _validate_table_name s = true -> is_empty s = false.
Proof. destruct s; [discriminate | reflexivity]. Qed.

(** Extraction returns a name exactly when schema validation and header
    parsing succeed and the [x-table-name] header holds a string that the
    validator accepts; the name returned is that string, unchanged. *)
Theorem extract_returns_iff (ev : event) (v : value) :
  extract_name ev = Return v <->
  validate_event_headers ev = Return tt
  /\ exists headers s,
      parse_event_headers ev = Return headers
      /\ headers !! "x-table-name" = Some (VStr s)
      /\ v = VStr s
      /\ _validate_table_name s = true.
Proof.
  unfold _extract_table_name_from_headers, extract_try, headers_get.
  split.
  - destruct (validate_event_headers ev) as [[]|e]; simpl;
      [|destruct e; discriminate].
    destruct (parse_event_headers ev) as [headers|e]; simpl;
      [|destruct e; discriminate].
    destruct (headers !! "x-table-name") as [w|] eqn:Hw; simpl;
      [|discriminate].
    destruct (truthy w) eqn:Ht; simpl; [|discriminate].
    destruct (call_validate_table_name w) as [[|]|e] eqn:Hc; simpl;
      [| discriminate | destruct e; discriminate].
    intros [= <-]. split; [reflexivity|].
    destruct (call_validate_true _ Hc) as (s & -> & Hs).
    exists headers, s. auto.
  - intros (-> & headers & s & -> & Hw & -> & Hs). simpl. rewrite Hw. simpl.
    unfold call_validate_table_name. simpl.
    rewrite (validate_true_nonempty _ Hs). simpl. rewrite Hs. reflexivity.
Qed.

(** A request without the header, or with an empty or null one, is refused
    with [TableNameValidationError]; the text says that the header is
    required, behind the prefix that the extractor puts on every exception
    it wraps. *)
Theorem extract_missing_header (ev : event) (headers : gmap string value) :
  validate_event_headers ev = Return tt ->
  parse_event_headers ev = Return headers ->
  truthy (headers_get headers "x-table-name") = false ->
  extract_name ev =
  Raise (TableNameValidationError
           "Failed to extract table name from headers: Table name header 'x-table-name' is required").
Proof.
  intros Hv Hp Ht.
  unfold _extract_table_name_from_headers, extract_try.
  rewrite Hv. simpl. rewrite Hp. simpl. rewrite Ht. reflexivity.
Qed.

(** A header holding a name that the validator refuses is answered with
    [TableNameValidationError]; the text quotes the name as it was sent. *)
Theorem extract_invalid_name (ev : event) (headers : gmap string value)
  (s : string) :
  validate_event_headers ev = Return tt ->
  parse_event_headers ev = Return headers ->
  headers !! "x-table-name" = Some (VStr s) ->
  is_empty s = false ->
  _validate_table_name s = false ->
  extract_name ev =
  Raise (TableNameValidationError
           ("Failed to extract table name from headers: Invalid table name '"
            +:+ s
            +:+ "'. Table names must start with a letter or underscore, contain only alphanumeric characters and underscores, be 1-63 characters long, and not be a reserved keyword.")).
Proof.
  intros Hv Hp Hh Hne Hs.
  unfold _extract_table_name_from_headers, extract_try, headers_get.
  rewrite Hv. simpl. rewrite Hp. simpl. rewrite Hh. simpl. rewrite Hne. simpl.
  unfold call_validate_table_name. simpl. rewrite Hne. simpl. rewrite Hs. simpl.
  reflexivity.
Qed.

End ExtractorFacts.

Section ExtractorExamples.

Import Py TableHandler Examples Facts.

Lemma extract_missing_header_witness :
  _extract_table_name_from_headers validate_ok parse_ok ∅ =
  Raise (TableNameValidationError
           "Failed to extract table name from headers: Table name header 'x-table-name' is required").
Proof.
  apply (extract_missing_header validate_ok parse_ok ∅ ∅); reflexivity.
Defined.

Lemma extract_invalid_name_witness :
  _extract_table_name_from_headers validate_ok parse_ok
    (event_of (VStr "drop table")) =
  Raise (TableNameValidationError
           "Failed to extract table name from headers: Invalid table name 'drop table'. Table names must start with a letter or underscore, contain only alphanumeric characters and underscores, be 1-63 characters long, and not be a reserved keyword.").
Proof.
  apply (extract_invalid_name validate_ok parse_ok
           (event_of (VStr "drop table")) (event_of (VStr "drop table"))
           "drop table"); vm_compute; reflexivity.
Defined.

End ExtractorExamples.

(* ===================================================================== *)
(** * Further properties of the reconciler *)
(* ===================================================================== *)

Section ReconcilerFacts.

Import Py TableHandler.

Lemma filter_lengths {A} (f : A -> bool) l :
  (length (List.filter f l) + length (List.filter (fun x => negb (f x)) l)
   = length l)%nat.
Proof.
  induction l as [|a l IH]; simpl; [reflexivity|].
  destruct (f a); simpl; lia.
Qed.

Lemma getitem_map {A} (f : string -> A) (l : list string) (k : string) :
  getitem (map (fun k => (k, f k)) l) k =
  if bool_decide (k ∈ l) then Return (f k) else Raise (KeyError k).
Proof.
  induction l as [|k' l IH]; cbn [map getitem].
  - case_bool_decide as H; [|reflexivity].
    apply elem_of_nil in H. contradiction.
  - destruct (String.eqb_spec k' k) as [->|Hne].
    + clear IH. case_bool_decide as H; [reflexivity|].
      exfalso. apply H, elem_of_cons. left. reflexivity.
    + rewrite IH. repeat case_bool_decide; try reflexivity; exfalso.
      * rewrite elem_of_cons in *. tauto.
      * rewrite elem_of_cons in *. intuition congruence.
Qed.

(** The two lists of the reconciler split the seven keys: a key is present
    when its value is truthy and missing otherwise, never both, and the
    lists have seven entries together. *)
Theorem partition_of_keys (environ : gmap string string) :
  let db_vars := read_db_vars environ in
  (forall k, k ∈ present_of db_vars <-> k ∈ db_keys /\ is_set environ k = true)
  /\ (forall k, k ∈ missing_of db_vars <-> k ∈ db_keys /\ is_set environ k = false)
  /\ (forall k, ~ (k ∈ present_of db_vars /\ k ∈ missing_of db_vars))
  /\ (length (present_of db_vars) + length (missing_of db_vars) = 7)%nat.
Proof.
  cbv zeta. rewrite read_db_vars_map, present_of_map, missing_of_map.
  assert (forall k, k ∈ List.filter (is_set environ) db_keys
                    <-> k ∈ db_keys /\ is_set environ k = true) as Hp.
  { intros k. rewrite !list_elem_of_In, filter_In. reflexivity. }
  assert (forall k, k ∈ List.filter (fun k => negb (is_set environ k)) db_keys
                    <-> k ∈ db_keys /\ is_set environ k = false) as Hm.
  { intros k. rewrite !list_elem_of_In, filter_In, negb_true_iff. reflexivity. }
  split; [exact Hp|]. split; [exact Hm|]. split.
  - intros k [H1 H2]. apply Hp in H1. apply Hm in H2.
    destruct H1 as [_ H1], H2 as [_ H2]. congruence.
  - rewrite filter_lengths. reflexivity.
Qed.

(** In the bundle that the reconciler returns, each of the seven keys reads
    back what [os.environ.get] gave for it, and every other key raises
    [KeyError]. *)
Theorem bundle_lookup (environ : gmap string string)
  (db_vars : list (string * value)) :
  _check_database_env_vars environ = Return db_vars ->
  forall k,
    getitem db_vars k =
    if bool_decide (k ∈ db_keys) then Return (environ_get environ k)
    else Raise (KeyError k).
Proof.
  intros H k. apply check_inv in H. subst db_vars.
  rewrite read_db_vars_map. apply getitem_map.
Qed.

(** The reconciler reads the seven keys and nothing else: two environments
    that agree on them get the same outcome. *)
Theorem check_reads_seven_keys (environ environ' : gmap string string) :
  (forall k, k ∈ db_keys -> environ !! k = environ' !! k) ->
  _check_database_env_vars environ = _check_database_env_vars environ'.
Proof.
  intros H.
  assert (read_db_vars environ = read_db_vars environ') as E.
  { rewrite !read_db_vars_map. apply map_ext_in. intros k Hk.
    apply list_elem_of_In in Hk. unfold environ_get. rewrite (H k Hk).
    reflexivity. }
  unfold _check_database_env_vars. rewrite E. reflexivity.
Qed.

(** With exactly one of the seven keys unset or empty, the reconciler raises
    [PartialDatabaseCredentialsError] naming that key alone as missing and
    the six others, in their order, as present. *)
Theorem check_one_missing (environ : gmap string string) (k : string) :
  k ∈ db_keys ->
  is_set environ k = false ->
  (forall k', k' ∈ db_keys -> k' <> k -> is_set environ k' = true) ->
  _check_database_env_vars environ =
  Raise (PartialDatabaseCredentialsError
           ("Some database credentials missing. Present: "
            +:+ repr_list (List.filter (fun k' => negb (String.eqb k' k)) db_keys)
            +:+ ", Missing: " +:+ repr_list [k])).
Proof.
  intros Hk Hunset Hothers. rewrite check_unfold. unfold db_keys in *.
  assert (forall k', k' ∈ db_keys -> is_set environ k' = negb (String.eqb k' k))
    as Hset.
  { intros k' Hk'. destruct (String.eqb_spec k' k) as [->|Hne]; simpl; auto. }
  unfold db_keys in Hset. cbn [List.filter].
  rewrite !Hset by (rewrite !elem_of_cons; tauto).
  repeat (apply elem_of_cons in Hk as [->|Hk]); try reflexivity.
  apply elem_of_nil in Hk. contradiction.
Qed.

End ReconcilerFacts.

Section ReconcilerExamples.

Import Py TableHandler Examples.

Lemma bundle_lookup_witness :
  getitem (read_db_vars env_full) "DB_PORT" = Return (VStr "5432")
  /\ getitem (read_db_vars env_full) "DB_SCHEMA" = Raise (KeyError "DB_SCHEMA").
Proof.
  pose proof (bundle_lookup env_full (read_db_vars env_full)) as H.
  split.
  - rewrite H by (vm_compute; reflexivity). vm_compute. reflexivity.
  - rewrite H by (vm_compute; reflexivity). vm_compute. reflexivity.
Defined.

Lemma check_reads_seven_keys_witness :
  _check_database_env_vars (<[ "AWS_REGION" := "eu-west-1" ]> env_full)
  = _check_database_env_vars env_full.
Proof.
  apply check_reads_seven_keys. intros k Hk.
  apply lookup_insert_ne. intros <-.
  apply list_elem_of_In in Hk. vm_compute in Hk.
  repeat (destruct Hk as [Hk|Hk]; [discriminate|]). exact Hk.
Defined.

Lemma check_one_missing_witness :
  _check_database_env_vars (delete "DB_HOST" env_full) =
  Raise (PartialDatabaseCredentialsError
           "Some database credentials missing. Present: ['DB_NAME', 'DB_USER', 'DB_PORT', 'DB_PASSWORD', 'EMBEDDING_MODEL_DIMENSIONS', 'PGVECTOR_DRIVER'], Missing: ['DB_HOST']").
Proof.
  apply (check_one_missing (delete "DB_HOST" env_full) "DB_HOST").
  - apply list_elem_of_In. vm_compute. tauto.
  - vm_compute. reflexivity.
  - intros k' Hk' Hne. apply list_elem_of_In in Hk'. vm_compute in Hk'.
    repeat (destruct Hk' as [<-|Hk']; [try (vm_compute; reflexivity);
                                       congruence|]).
    contradiction.
Defined.

End ReconcilerExamples.

(* ===================================================================== *)
(** * Further properties of the builder and of the header-driven handler *)
(* ===================================================================== *)

Section BuilderFacts.

Import Py TableHandler.

Lemma append_assoc (a b c : string) : (a +:+ b) +:+ c = a +:+ (b +:+ c).
Proof.
  induction a as [|x a IH]; [reflexivity|].
  change (String x ((a +:+ b) +:+ c) = String x (a +:+ (b +:+ c))).
  f_equal. exact IH.
Qed.

(** The descriptor does not determine its parts, since nothing is escaped:
    a colon inside the user name, or an at-sign inside the password, gives
    the descriptor of other credentials. *)
Theorem descriptor_is_ambiguous (a b c host port database : string) :
  _connection_string_from_db_params (VStr "psycopg") (VStr host) (VStr port)
    (VStr database) (VStr (a +:+ ":" +:+ b)) (VStr c)
  = _connection_string_from_db_params (VStr "psycopg") (VStr host) (VStr port)
      (VStr database) (VStr a) (VStr (b +:+ ":" +:+ c))
  /\ _connection_string_from_db_params (VStr "psycopg") (VStr host) (VStr port)
       (VStr database) (VStr a) (VStr (b +:+ "@" +:+ c))
     = _connection_string_from_db_params (VStr "psycopg")
         (VStr (c +:+ "@" +:+ host)) (VStr port) (VStr database)
         (VStr a) (VStr b).
Proof.
  unfold _connection_string_from_db_params.
  change (eq_str (VStr "psycopg") "psycopg") with true. cbn [negb format].
  split; f_equal; rewrite !append_assoc; reflexivity.
Qed.

End BuilderFacts.

Section HandlerFacts.

Import Py TableHandler.

Context {event engine : Type}.
Variable validate_event_headers : event -> outcome unit.
Variable parse_event_headers : event -> outcome (gmap string value).
Variable from_connection_string : string -> outcome engine.
Variable ainit_vectorstore_table : engine -> value -> Z -> outcome unit.
Variable int_of_str : string -> option Z.

Abbreviation extracted :=
  (_extract_table_name_from_headers validate_event_headers parse_event_headers).
Abbreviation try_block :=
  (handler_try validate_event_headers parse_event_headers
     from_connection_string ainit_vectorstore_table int_of_str).
Abbreviation answer :=
  (handler validate_event_headers parse_event_headers
     from_connection_string ainit_vectorstore_table int_of_str).

Lemma is_set_of_lookup environ k v :
  environ !! k = Some v -> is_empty v = false -> is_set environ k = true.
Proof.
  intros H Hv. unfold is_set, environ_get. rewrite H. simpl. rewrite Hv.
  reflexivity.
Qed.

(** The success path: with a table name extracted, the seven keys set, the
    driver "psycopg", an engine made from the descriptor of those values,
    a dimension that [int] parses and a collaborator call (on that engine,
    that name and that number) that returns, the answer is 200 and names
    the table. *)
Theorem handler_success (ev : event) (environ : gmap string string)
  (t : value) (db user host port password dims : string) (eng : engine)
  (n : Z) :
  extracted ev = Return t ->
  environ !! "DB_NAME" = Some db -> is_empty db = false ->
  environ !! "DB_USER" = Some user -> is_empty user = false ->
  environ !! "DB_HOST" = Some host -> is_empty host = false ->
  environ !! "DB_PORT" = Some port -> is_empty port = false ->
  environ !! "DB_PASSWORD" = Some password -> is_empty password = false ->
  environ !! "EMBEDDING_MODEL_DIMENSIONS" = Some dims -> is_empty dims = false ->
  environ !! "PGVECTOR_DRIVER" = Some "psycopg" ->
  from_connection_string
    ("postgresql+psycopg://" +:+ user +:+ ":" +:+ password +:+ "@" +:+ host
     +:+ ":" +:+ port +:+ "/" +:+ db) = Return eng ->
  int_of_str dims = Some n ->
  ainit_vectorstore_table eng t n = Return tt ->
  answer ev environ =
  Return {| statusCode := 200;
            body := "Successfully created vector table '" +:+ format t
                    +:+ "' with pgvector extension." |}.
Proof.
  intros Hext Hdb Hdb' Hu Hu' Hh Hh' Hp Hp' Hw Hw' Hd Hd' Hdrv Heng Hint Hcall.
  assert (_check_database_env_vars environ = Return (read_db_vars environ))
    as Hchk.
  { rewrite check_unfold. cbv zeta.
    rewrite (filter_nil_of_forallb (is_set environ) db_keys).
    - rewrite andb_false_r. reflexivity.
    - simpl.
      rewrite (is_set_of_lookup _ _ _ Hdb Hdb'), (is_set_of_lookup _ _ _ Hu Hu'),
        (is_set_of_lookup _ _ _ Hh Hh'), (is_set_of_lookup _ _ _ Hp Hp'),
        (is_set_of_lookup _ _ _ Hw Hw'), (is_set_of_lookup _ _ _ Hd Hd'),
        (is_set_of_lookup _ _ _ Hdrv eq_refl).
      reflexivity. }
  assert (url_of environ =
          Return ("postgresql+psycopg://" +:+ user +:+ ":" +:+ password +:+ "@"
                  +:+ host +:+ ":" +:+ port +:+ "/" +:+ db)) as Hurl.
  { unfold url_of, environ_get. rewrite Hdb, Hu, Hh, Hp, Hw, Hdrv.
    reflexivity. }
  unfold handler.
  rewrite (handler_block_after_setup _ _ _ _ _ _ _ _ _ Hext Hchk).
  rewrite Hurl. simpl. rewrite Heng. simpl.
  unfold environ_get. rewrite Hd. simpl. rewrite Hint. simpl.
  rewrite Hcall. reflexivity.
Qed.

Lemma try_block_return_inv (ev : event) (environ : gmap string string)
  (r : response) :
  try_block ev environ = Return r ->
  exists t url eng n,
    extracted ev = Return t
    /\ _check_database_env_vars environ = Return (read_db_vars environ)
    /\ environ !! "PGVECTOR_DRIVER" = Some "psycopg"
    /\ url_of environ = Return url
    /\ from_connection_string url = Return eng
    /\ py_int int_of_str (environ_get environ "EMBEDDING_MODEL_DIMENSIONS")
       = Return n
    /\ ainit_vectorstore_table eng t n = Return tt
    /\ r = {| statusCode := 200; body := success_message t |}.
Proof.
  intros Hb. unfold handler_try in Hb.
  destruct (extracted ev) as [t|e] eqn:Hext; [|discriminate].
  simpl in Hb.
  destruct (_check_database_env_vars environ) as [d|e] eqn:Hchk;
    [|discriminate].
  pose proof (check_inv _ _ Hchk) as ->. simpl in Hb.
  fold (url_of environ) in Hb.
  destruct (url_of environ) as [url|e] eqn:Hurl; [|discriminate].
  simpl in Hb.
  destruct (from_connection_string url) as [eng|e] eqn:Heng; [|discriminate].
  simpl in Hb.
  destruct (py_int int_of_str _) as [n|e] eqn:Hint; [|discriminate].
  simpl in Hb.
  destruct (ainit_vectorstore_table eng t n) as [[]|e] eqn:Hcall;
    [|discriminate].
  simpl in Hb. injection Hb as <-.
  exists t, url, eng, n. repeat split; auto.
  unfold url_of, _connection_string_from_db_params in Hurl.
  destruct (eq_str _ "psycopg") eqn:Hd; [|discriminate].
  apply eq_str_true in Hd. unfold environ_get in Hd.
  destruct (environ !! "PGVECTOR_DRIVER"); congruence.
Qed.

(** An answer of 200 is given only after the collaborator call returned:
    the table name was extracted, the environment reconciled, the driver is
    "psycopg", the engine was made from the descriptor, the dimension
    parsed, and the call was made with that engine, name and number. *)
Theorem handler_200_only_after_call (ev : event)
  (environ : gmap string string) (r : response) :
  answer ev environ = Return r ->
  statusCode r = 200 ->
  exists t url eng n,
    extracted ev = Return t
    /\ _check_database_env_vars environ = Return (read_db_vars environ)
    /\ environ !! "PGVECTOR_DRIVER" = Some "psycopg"
    /\ url_of environ = Return url
    /\ from_connection_string url = Return eng
    /\ py_int int_of_str (environ_get environ "EMBEDDING_MODEL_DIMENSIONS")
       = Return n
    /\ ainit_vectorstore_table eng t n = Return tt
    /\ body r = success_message t.
Proof.
  unfold handler. destruct (try_block ev environ) as [r0|e] eqn:Hb.
  - intros [= <-] _.
    destruct (try_block_return_inv _ _ _ Hb)
      as (t & url & eng & n & H1 & H2 & H3 & H4 & H5 & H6 & H7 & ->).
    exists t, url, eng, n. repeat split; auto.
  - destruct e; intros [= <-]; simpl; discriminate.
Qed.

(** Every answer has one of four shapes: 200 with the success text, 400
    with a validation error, 400 with a credentials error, or 500 with the
    one generic text. *)
Theorem handler_answer_shapes (ev : event) (environ : gmap string string) :
  exists r, answer ev environ = Return r
  /\ ((statusCode r = 200 /\ exists t, body r = success_message t)
      \/ (statusCode r = 400
          /\ exists m, body r = "Validation error: " +:+ m)
      \/ (statusCode r = 400
          /\ exists m, body r = "Database credentials error: " +:+ m)
      \/ (statusCode r = 500
          /\ body r = "Failed to create vector table with pgvector extension.")).
Proof.
  destruct (try_block ev environ) as [r0|e] eqn:Hb.
  - assert (answer ev environ = Return r0) as Ha
      by (unfold handler; rewrite Hb; reflexivity).
    exists r0. split; [exact Ha|]. left.
    destruct (try_block_return_inv _ _ _ Hb)
      as (t & url & eng & n & _ & _ & _ & _ & _ & _ & _ & ->).
    simpl. eauto.
  - unfold handler. rewrite Hb.
    destruct e; (eexists; split; [reflexivity|]); simpl; eauto 6.
Qed.

(** With a table name extracted and the seven keys neither all set nor all
    unset, the answer is 400 and its body lists the present keys and the
    missing keys. *)
Theorem handler_partial_configuration (ev : event)
  (environ : gmap string string) (t : value) :
  extracted ev = Return t ->
  existsb (is_set environ) db_keys = true ->
  forallb (is_set environ) db_keys = false ->
  answer ev environ =
  Return {| statusCode := 400;
            body := "Database credentials error: Some database credentials missing. Present: "
                    +:+ repr_list (List.filter (is_set environ) db_keys)
                    +:+ ", Missing: "
                    +:+ repr_list
                          (List.filter (fun k => negb (is_set environ k)) db_keys) |}.
Proof.
  intros Hext Hsome Hnot.
  pose proof (filter_cons_of_existsb _ _ Hsome) as Hp.
  pose proof (filter_cons_of_forallb _ _ Hnot) as Hm.
  apply nonempty_true in Hp, Hm.
  unfold handler, handler_try. rewrite Hext. simpl.
  rewrite check_unfold. cbv zeta. rewrite Hp, Hm. reflexivity.
Qed.

(** With a table name extracted and none of the seven keys set, the
    reconciler lets the empty bundle through and the builder then refuses
    the missing driver: the answer is 500, never a success. *)
Theorem handler_unconfigured (ev : event) (environ : gmap string string)
  (t : value) :
  extracted ev = Return t ->
  existsb (is_set environ) db_keys = false ->
  _check_database_env_vars environ = Return (read_db_vars environ)
  /\ answer ev environ =
     Return {| statusCode := 500;
               body := "Failed to create vector table with pgvector extension." |}.
Proof.
  intros Hext Hnone.
  assert (_check_database_env_vars environ = Return (read_db_vars environ))
    as Hchk.
  { rewrite check_unfold. cbv zeta.
    rewrite (filter_nil_of_existsb _ _ Hnone). reflexivity. }
  split; [exact Hchk|].
  assert (eq_str (environ_get environ "PGVECTOR_DRIVER") "psycopg" = false)
    as Hdrv.
  { simpl in Hnone. rewrite !orb_false_iff in Hnone.
    destruct Hnone as (_ & _ & _ & _ & _ & _ & Hd & _).
    unfold is_set in Hd.
    destruct (environ_get environ "PGVECTOR_DRIVER") as [|s|z|l b x];
      try reflexivity.
    destruct s; [reflexivity | discriminate Hd]. }
  unfold handler.
  rewrite (handler_block_after_setup _ _ _ _ _ _ _ _ _ Hext Hchk).
  unfold url_of. rewrite (builder_rejects _ _ _ _ _ _ Hdrv). reflexivity.
Qed.

End HandlerFacts.

Section HandlerExamples.

Import Py TableHandler Examples.

Abbreviation invoke_table :=
  (handler validate_ok parse_ok engine_ok ainit_ok int_digits).

Lemma handler_success_witness :
  invoke_table event_embeddings env_full =
  Return {| statusCode := 200;
            body := "Successfully created vector table 'embeddings' with pgvector extension." |}.
Proof.
  apply (handler_success validate_ok parse_ok engine_ok ainit_ok int_digits
           event_embeddings env_full (VStr "embeddings")
           "app" "u" "db.example.com" "5432" "p" "1536" tt 1536);
    vm_compute; reflexivity.
Defined.

Lemma handler_200_only_after_call_witness :
  exists t url eng n,
    _extract_table_name_from_headers validate_ok parse_ok event_embeddings
    = Return t
    /\ _check_database_env_vars env_full = Return (read_db_vars env_full)
    /\ env_full !! "PGVECTOR_DRIVER" = Some "psycopg"
    /\ url_of env_full = Return url
    /\ engine_ok url = Return eng
    /\ py_int int_digits (environ_get env_full "EMBEDDING_MODEL_DIMENSIONS")
       = Return n
    /\ ainit_ok eng t n = Return tt
    /\ "Successfully created vector table 'embeddings' with pgvector extension."
       = success_message t.
Proof.
  apply (handler_200_only_after_call validate_ok parse_ok engine_ok ainit_ok
           int_digits event_embeddings env_full
           {| statusCode := 200;
              body := "Successfully created vector table 'embeddings' with pgvector extension." |});
    vm_compute; reflexivity.
Defined.

Lemma handler_partial_configuration_witness :
  invoke_table event_embeddings env_empty_password =
  Return {| statusCode := 400;
            body := "Database credentials error: Some database credentials missing. Present: ['DB_NAME', 'DB_USER', 'DB_HOST', 'DB_PORT', 'EMBEDDING_MODEL_DIMENSIONS', 'PGVECTOR_DRIVER'], Missing: ['DB_PASSWORD']" |}.
Proof.
  apply (handler_partial_configuration validate_ok parse_ok engine_ok ainit_ok
           int_digits event_embeddings env_empty_password (VStr "embeddings"));
    vm_compute; reflexivity.
Defined.

Lemma handler_unconfigured_witness :
  invoke_table event_embeddings ∅ =
  Return {| statusCode := 500;
            body := "Failed to create vector table with pgvector extension." |}.
Proof.
  apply (handler_unconfigured validate_ok parse_ok engine_ok ainit_ok
           int_digits event_embeddings ∅ (VStr "embeddings"));
    vm_compute; reflexivity.
Defined.

End HandlerExamples.

(* ===================================================================== *)
(** * Further properties of the legacy handler *)
(* ===================================================================== *)

Section LegacyFacts.

Import Py Legacy Facts.

Variable get_secret_value : string -> outcome (gmap string string).
Variable decode_utf8 : string -> outcome string.
Variable json_loads : string -> outcome (gmap string value).
Variable psycopg_raises : db_call -> option exn.

Abbreviation old_handler :=
  (Legacy.handler get_secret_value decode_utf8 json_loads psycopg_raises).
Abbreviation secret_for :=
  (Legacy.get_secret get_secret_value decode_utf8 json_loads).

Lemma environ_get_of_lookup (environ : gmap string string) k v :
  environ !! k = Some v -> environ_get environ k = VStr v.
Proof. intros H. unfold environ_get. rewrite H. reflexivity. Qed.

(** The success path of the legacy handler: with both settings present, a
    secret holding user name and password, host and database name set, and
    no psycopg call raising, the answer is 200; the six calls were made in
    program order, the statement carries the dimension text as it stands in
    the environment, and cursor and connection are closed. *)
Theorem legacy_success (environ : gmap string string) (st : db_state)
  (arn dims : string) (secret : gmap string value) (u pw : value) :
  environ !! "DB_SECRET_ARN" = Some arn -> is_empty arn = false ->
  environ !! "VECTOR_DIMENTIONS" = Some dims -> is_empty dims = false ->
  secret_for arn = Return secret ->
  secret !! "username" = Some u -> secret !! "password" = Some pw ->
  forallb truthy [environ_get environ "DB_HOST"; environ_get environ "DB_NAME";
                  u; pw] = true ->
  (forall c, c ∈ legacy_script (environ_get environ "DB_HOST")
                   (environ_get environ "DB_NAME") u pw dims ->
             psycopg_raises c = None) ->
  exists st',
    old_handler environ st =
    (Return {| statusCode := 200;
               body := json_dumps ("Vector extension with dimensions " +:+ dims
                                   +:+ " created successfully!") |}, st')
    /\ calls st' =
       rev (legacy_script (environ_get environ "DB_HOST")
              (environ_get environ "DB_NAME") u pw dims) ++ calls st
    /\ conn_open st' = false
    /\ cursor_open st' = false.
Proof.
  intros Harn Ha Hdims Hd Hsec Hu Hpw Hall Hok.
  unfold legacy_script in Hok.
  unfold Legacy.handler, Legacy.handler_try, db_bind, lift, call, subscript.
  rewrite (environ_get_of_lookup _ _ _ Harn), (environ_get_of_lookup _ _ _ Hdims).
  simpl truthy. rewrite Ha, Hd. simpl negb. cbv iota. simpl format.
  rewrite Hsec, Hu, Hpw, Hall. simpl negb. cbv iota.
  rewrite !Hok by (rewrite !elem_of_cons; tauto).
  eexists. split; [reflexivity|]. simpl. auto.
Qed.

(** An answer of 200 from the legacy handler means that all six calls were
    made, in program order and none raising, and that the connection and
    the cursor are closed when it returns. *)
Theorem legacy_200_only_after_close (environ : gmap string string)
  (st st' : db_state) (r : response) :
  old_handler environ st = (Return r, st') ->
  statusCode r = 200 ->
  exists u pw,
    calls st' =
    rev (legacy_script (environ_get environ "DB_HOST")
           (environ_get environ "DB_NAME") u pw
           (format (environ_get environ "VECTOR_DIMENTIONS"))) ++ calls st
    /\ (forall c, c ∈ legacy_script (environ_get environ "DB_HOST")
                        (environ_get environ "DB_NAME") u pw
                        (format (environ_get environ "VECTOR_DIMENTIONS")) ->
                  psycopg_raises c = None)
    /\ conn_open st' = false
    /\ cursor_open st' = false.
Proof.
  unfold Legacy.handler, Legacy.handler_try, db_bind, lift, call, db_ret,
    legacy_script.
  repeat (case_match; simplify_eq/=);
    try discriminate; intros [= <- <-]; simpl; try discriminate.
  intros _. eexists _, _. split; [reflexivity|].
  split; [|auto].
  intros c Hc. rewrite !elem_of_cons, elem_of_nil in Hc.
  destruct Hc as [->|[->|[->|[->|[->|[->|[]]]]]]]; assumption.
Qed.

(** Whatever happens, the psycopg calls of one invocation are an initial
    part of the one script connect, cursor, execute, commit, close cursor,
    close connection: nothing is executed without a cursor, nothing is
    committed before the statement ran, and there is one connection at
    most. *)
Theorem legacy_calls_follow_script (environ : gmap string string)
  (st st' : db_state) (o : outcome response) :
  old_handler environ st = (o, st') ->
  exists n u pw,
    calls st' =
    rev (take n (legacy_script (environ_get environ "DB_HOST")
                   (environ_get environ "DB_NAME") u pw
                   (format (environ_get environ "VECTOR_DIMENTIONS"))))
    ++ calls st.
Proof.
  unfold Legacy.handler, Legacy.handler_try, db_bind, lift, call, db_ret,
    legacy_script.
  repeat (case_match; simplify_eq/=); intros [= <- <-]; simpl;
    first [ by exists 0%nat, VNone, VNone
          | by eexists 1%nat, _, _
          | by eexists 2%nat, _, _
          | by eexists 3%nat, _, _
          | by eexists 4%nat, _, _
          | by eexists 5%nat, _, _
          | by eexists 6%nat, _, _ ].
Qed.


(** A failure before the connection gives 500 and no psycopg call: when
    the secret cannot be fetched the body carries the text of that
    exception, and when the secret lacks the user name or the password the
    body carries the quoted key of the [KeyError]. *)
Theorem legacy_secret_failures (environ : gmap string string) (st : db_state)
  (arn dims : string) :
  environ !! "DB_SECRET_ARN" = Some arn -> is_empty arn = false ->
  environ !! "VECTOR_DIMENTIONS" = Some dims -> is_empty dims = false ->
  (forall e, secret_for arn = Raise e ->
             old_handler environ st =
             (Return {| statusCode := 500;
                        body := json_dumps ("Error creating vector extension: "
                                            +:+ str e) |}, st))
  /\ (forall secret, secret_for arn = Return secret ->
                     secret !! "username" = None ->
                     old_handler environ st =
                     (Return {| statusCode := 500;
                                body := json_dumps "Error creating vector extension: 'username'" |},
                      st))
  /\ (forall secret u, secret_for arn = Return secret ->
                       secret !! "username" = Some u ->
                       secret !! "password" = None ->
                       old_handler environ st =
                       (Return {| statusCode := 500;
                                  body := json_dumps "Error creating vector extension: 'password'" |},
                        st)).
Proof.
  intros Harn Ha Hdims Hd.
  unfold Legacy.handler, Legacy.handler_try, db_bind, lift, subscript.
  rewrite (environ_get_of_lookup _ _ _ Harn), (environ_get_of_lookup _ _ _ Hdims).
  simpl truthy. rewrite Ha, Hd. simpl negb. cbv iota. simpl format.
  split; [|split].
  - intros e ->. reflexivity.
  - intros secret -> ->. reflexivity.
  - intros secret u -> -> ->. reflexivity.
Qed.

(** Once [psycopg.connect] has returned, every answer of 500 leaves the
    connection open: the failure path closes nothing. *)
Theorem legacy_500_keeps_connection (environ : gmap string string)
  (st' : db_state) (r : response) (host dbname u pw : value) :
  old_handler environ initial = (Return r, st') ->
  statusCode r = 500 ->
  Connect host dbname u pw ∈ calls st' ->
  psycopg_raises (Connect host dbname u pw) = None ->
  conn_open st' = true.
Proof.
  unfold Legacy.handler, Legacy.handler_try, db_bind, lift, call, db_ret,
    initial.
  repeat (case_match; simplify_eq/=);
    try discriminate; intros [= <- <-]; simpl; try discriminate;
    intros _ Hin Hok; try reflexivity;
    rewrite ?elem_of_cons, ?elem_of_nil in Hin; exfalso;
    repeat (destruct Hin as [Hin|Hin]; simplify_eq/=); auto.
Qed.

End LegacyFacts.

Section LegacyBody.

Import Py Legacy Facts Spec.

Variable get_secret_value : string -> outcome (gmap string string).
Variable decode_utf8 : string -> outcome string.
Variable json_loads : string -> outcome (gmap string value).
Variable psycopg_raises : db_call -> option exn.

Lemma all_chars_append f a b :
  all_chars f (a +:+ b) = all_chars f a && all_chars f b.
Proof.
  induction a as [|x a IH]; [reflexivity|].
  change (all_chars f (String x (a +:+ b))
          = all_chars f (String x a) && all_chars f b).
  simpl. rewrite IH, andb_assoc. reflexivity.
Qed.

Lemma json_escape_char_printable c :
  all_chars is_printable (json_escape_char c) = true.
Proof. destruct c as [[] [] [] [] [] [] [] []]; vm_compute; reflexivity. Qed.

Lemma json_escape_char_plain c :
  is_plain c = true -> json_escape_char c = String c "".
Proof. destruct c as [[] [] [] [] [] [] [] []]; vm_compute; congruence. Qed.

Lemma json_escape_printable s : all_chars is_printable (json_escape s) = true.
Proof.
  induction s as [|c s IH]; [reflexivity|].
  change (json_escape (String c s)) with (json_escape_char c +:+ json_escape s).
  rewrite all_chars_append, json_escape_char_printable, IH. reflexivity.
Qed.

Lemma json_dumps_printable s : all_chars is_printable (json_dumps s) = true.
Proof.
  unfold json_dumps.
  change (String dquote (json_escape s) +:+ String dquote "")
    with (String dquote (json_escape s +:+ String dquote "")).
  cbn [all_chars]. rewrite all_chars_append, json_escape_printable.
  reflexivity.
Qed.

(** Text made of printable characters other than the double quote and the
    backslash is encoded by [json_dumps] as itself between two double
    quotes. *)
Theorem json_dumps_plain_text s :
  all_chars is_plain s = true ->
  json_dumps s = String dquote (s +:+ String dquote "").
Proof.
  intros H. unfold json_dumps.
  change (String dquote (json_escape s) +:+ String dquote "")
    with (String dquote (json_escape s +:+ String dquote "")).
  do 2 f_equal. induction s as [|c s IH]; [reflexivity|].
  simpl in H. apply andb_true_iff in H as [Hc Hs].
  change (json_escape (String c s)) with (json_escape_char c +:+ json_escape s).
  rewrite (json_escape_char_plain _ Hc), (IH Hs). reflexivity.
Qed.

(** Every body that the legacy handler returns is a JSON string of
    printable ASCII: whatever the text of an exception holds (a newline, a
    double quote, a character above 126) reaches the caller escaped. *)
Theorem legacy_body_is_printable (environ : gmap string string)
  (st st' : db_state) (r : response) :
  Legacy.handler get_secret_value decode_utf8 json_loads psycopg_raises
    environ st = (Return r, st') ->
  all_chars is_printable (body r) = true
  /\ exists text, body r = json_dumps text.
Proof.
  unfold Legacy.handler.
  destruct (negb (truthy (environ_get environ "DB_SECRET_ARN")));
    [discriminate|].
  destruct (negb (truthy (environ_get environ "VECTOR_DIMENTIONS")));
    [discriminate|].
  destruct (Legacy.handler_try _ _ _ _ environ _ _ st) as [[r0|e] st0] eqn:Hb.
  - intros [= <- <-]. apply legacy_block_return in Hb as (-> & _).
    simpl. unfold success_body. split; [apply json_dumps_printable | eauto].
  - intros [= <- <-]. simpl. unfold error_body.
    split; [apply json_dumps_printable | eauto].
Qed.

End LegacyBody.

Section LegacyExamples.

Import Py Legacy Facts Spec Examples.

Abbreviation run_legacy := (Legacy.handler secret_response decode_ok).

Lemma legacy_success_witness :
  exists st',
    run_legacy secret_admin psycopg_ok legacy_env initial =
    (Return {| statusCode := 200;
               body := json_dumps "Vector extension with dimensions 1536 created successfully!" |},
     st')
    /\ calls st' =
       [ConnClose; CursorClose; Commit;
        Execute "CREATE EXTENSION IF NOT EXISTS vector WITH (dim = 1536);";
        Cursor;
        Connect (VStr "db.internal") (VStr "app") (VStr "admin") (VStr "hunter2")]
    /\ conn_open st' = false
    /\ cursor_open st' = false.
Proof.
  apply (legacy_success secret_response decode_ok secret_admin psycopg_ok
           legacy_env initial "arn:aws:secretsmanager:eu-west-1:1:secret:db"
           "1536" hunter (VStr "admin") (VStr "hunter2"));
    vm_compute; reflexivity.
Defined.

Lemma legacy_200_only_after_close_witness :
  exists u pw,
    calls (snd (run_legacy secret_admin psycopg_ok legacy_env initial)) =
    rev (legacy_script (environ_get legacy_env "DB_HOST")
           (environ_get legacy_env "DB_NAME") u pw
           (format (environ_get legacy_env "VECTOR_DIMENTIONS"))) ++ calls initial
    /\ (forall c, c ∈ legacy_script (environ_get legacy_env "DB_HOST")
                        (environ_get legacy_env "DB_NAME") u pw
                        (format (environ_get legacy_env "VECTOR_DIMENTIONS")) ->
                  psycopg_ok c = None)
    /\ conn_open (snd (run_legacy secret_admin psycopg_ok legacy_env initial))
       = false
    /\ cursor_open (snd (run_legacy secret_admin psycopg_ok legacy_env initial))
       = false.
Proof.
  apply (legacy_200_only_after_close secret_response decode_ok secret_admin
           psycopg_ok legacy_env initial
           (snd (run_legacy secret_admin psycopg_ok legacy_env initial))
           {| statusCode := 200;
              body := success_body "1536" |});
    vm_compute; reflexivity.
Defined.

Lemma legacy_calls_follow_script_witness :
  exists n u pw,
    calls (snd (run_legacy secret_admin psycopg_no_extension legacy_env initial))
    = rev (take n (legacy_script (environ_get legacy_env "DB_HOST")
                     (environ_get legacy_env "DB_NAME") u pw
                     (format (environ_get legacy_env "VECTOR_DIMENTIONS"))))
      ++ calls initial.
Proof.
  apply (legacy_calls_follow_script secret_response decode_ok secret_admin
           psycopg_no_extension legacy_env initial _
           (fst (run_legacy secret_admin psycopg_no_extension legacy_env initial))).
  vm_compute. reflexivity.
Defined.


Lemma legacy_secret_failures_witness :
  run_legacy secret_no_user psycopg_ok legacy_env initial =
  (Return {| statusCode := 500;
             body := json_dumps "Error creating vector extension: 'username'" |},
   initial).
Proof.
  destruct (legacy_secret_failures secret_response decode_ok secret_no_user
              psycopg_ok legacy_env initial
              "arn:aws:secretsmanager:eu-west-1:1:secret:db" "1536"
              eq_refl eq_refl eq_refl eq_refl) as (_ & Huser & _).
  apply (Huser {[ "password" := VStr "hunter2" ]}); vm_compute; reflexivity.
Defined.

Lemma legacy_500_keeps_connection_witness :
  conn_open (snd (run_legacy secret_admin psycopg_lost legacy_env initial))
  = true.
Proof.
  apply (legacy_500_keeps_connection secret_response decode_ok secret_admin
           psycopg_lost legacy_env _
           {| statusCode := 500;
              body := error_body
                        (Other "OperationalError"
                           "connection to server at db.internal, port 5432, user admin was lost") |}
           (VStr "db.internal") (VStr "app") (VStr "admin") (VStr "hunter2")).
  - vm_compute. reflexivity.
  - reflexivity.
  - apply list_elem_of_In. vm_compute. tauto.
  - reflexivity.
Defined.

Lemma json_dumps_plain_text_witness :
  json_dumps "Vector extension with dimensions 1536 created successfully!"
  = String dquote
      ("Vector extension with dimensions 1536 created successfully!"
       +:+ String dquote "").
Proof.
  apply json_dumps_plain_text. vm_compute. reflexivity.
Defined.

Lemma legacy_body_is_printable_witness :
  all_chars is_printable
    (body_of (fst (run_legacy secret_admin psycopg_lost legacy_env initial)))
  = true.
Proof.
  refine (proj1 (legacy_body_is_printable secret_response decode_ok
                   secret_admin psycopg_lost legacy_env initial
                   (snd (run_legacy secret_admin psycopg_lost legacy_env initial))
                   {| statusCode := 500;
                      body := body_of (fst (run_legacy secret_admin psycopg_lost
                                              legacy_env initial)) |} _)).
  vm_compute. reflexivity.
Defined.

End LegacyExamples.

(* ===================================================================== *)
(** * What reaches the collaborator, and where the secret comes from *)
(* ===================================================================== *)

Section ExtractedNames.

Import Py TableHandler Spec.

Context {event : Type}.
Variable validate_event_headers : event -> outcome unit.
Variable parse_event_headers : event -> outcome (gmap string value).

(** A name that extraction returns is a string of at most 63 characters
    made of a letter or underscore followed by letters, digits and
    underscores, with at most one newline after them, and it is no reserved
    word: no quote, blank or semicolon reaches the collaborator. *)
Theorem extracted_name_is_word (ev : event) (v : value) :
  _extract_table_name_from_headers validate_event_headers parse_event_headers ev
  = Return v ->
  exists s w,
    v = VStr s
    /\ (s = w \/ s = w +:+ nl)
    /\ fully_matches w = true
    /\ (String.length s <= 63)%nat
    /\ lower s ∉ reserved_keywords.
Proof.
  intros H. unfold _extract_table_name_from_headers in H.
  destruct (extract_try validate_event_headers parse_event_headers ev)
    as [v'|e] eqn:Hb; [|destruct e; discriminate].
  injection H as ->.
  destruct (extract_block_return _ _ _ _ Hb) as (s & -> & Hs).
  apply validate_true_iff in Hs. destruct Hs as (_ & Hlen & Hm & Hr).
  apply re_match_table_name_pattern in Hm. destruct Hm as (w & Hw & Hsw).
  exists s, w. auto.
Qed.

End ExtractedNames.

Section SecretSource.

Import Py Legacy.

Variable get_secret_value : string -> outcome (gmap string string).
Variable decode_utf8 decode_utf8' : string -> outcome string.
Variable json_loads : string -> outcome (gmap string value).

(** [get_secret] parses [SecretString] when the response has one, and then
    neither looks at [SecretBinary] nor decodes anything; without it, it
    decodes and parses [SecretBinary]; with neither field it raises
    [KeyError] for [SecretBinary]; a failure of the fetch is passed on. *)
Theorem get_secret_sources (secret_name : string) :
  (forall e, get_secret_value secret_name = Raise e ->
             get_secret get_secret_value decode_utf8 json_loads secret_name
             = Raise e)
  /\ (forall response s,
         get_secret_value secret_name = Return response ->
         response !! "SecretString" = Some s ->
         get_secret get_secret_value decode_utf8 json_loads secret_name
         = json_loads s
         /\ get_secret get_secret_value decode_utf8' json_loads secret_name
            = json_loads s)
  /\ (forall response b,
         get_secret_value secret_name = Return response ->
         response !! "SecretString" = None ->
         response !! "SecretBinary" = Some b ->
         get_secret get_secret_value decode_utf8 json_loads secret_name
         = match decode_utf8 b with
           | Return text => json_loads text
           | Raise e => Raise e
           end)
  /\ (forall response,
         get_secret_value secret_name = Return response ->
         response !! "SecretString" = None ->
         response !! "SecretBinary" = None ->
         get_secret get_secret_value decode_utf8 json_loads secret_name
         = Raise (KeyError "SecretBinary")).
Proof.
  unfold get_secret. split; [|split; [|split]].
  - intros e ->. reflexivity.
  - intros response s -> Hs. simpl. rewrite Hs. split; reflexivity.
  - intros response b -> Hs Hb. simpl. rewrite Hs, Hb. reflexivity.
  - intros response -> Hs Hb. simpl. rewrite Hs, Hb. reflexivity.
Qed.

End SecretSource.

Section LastExamples.

Import Py TableHandler Spec Examples Facts.

Lemma extracted_name_is_word_witness :
  exists s w,
    VStr "embeddings" = VStr s
    /\ (s = w \/ s = w +:+ nl)
    /\ fully_matches w = true
    /\ (String.length s <= 63)%nat
    /\ lower s ∉ reserved_keywords.
Proof.
  apply (extracted_name_is_word validate_ok parse_ok event_embeddings
           (VStr "embeddings")).
  vm_compute. reflexivity.
Defined.

Lemma get_secret_sources_witness :
  Legacy.get_secret secret_response decode_ok secret_admin "db"
  = Return hunter
  /\ Legacy.get_secret (fun _ => Return ∅) decode_ok secret_admin "db"
     = Raise (KeyError "SecretBinary").
Proof.
  split.
  - destruct (get_secret_sources secret_response decode_ok decode_ok
                secret_admin "db") as (_ & Hstring & _).
    apply (Hstring {[ "SecretString" := "{...}" ]} "{...}"); reflexivity.
  - destruct (get_secret_sources (fun _ => Return ∅) decode_ok decode_ok
                secret_admin "db") as (_ & _ & _ & Hnone).
    apply (Hnone ∅); reflexivity.
Defined.

End LastExamples.
